(** * OTA host for the ESP32: a shallow embedding of [ota_host.py]

    The host program talks to the device over a serial port with frames
    [[CODE][LENGTH][DATA][XOR]].  This development embeds the classes
    [Command], [Response], [VersionInfo], the methods [connect],
    [disconnect], [send_command], [read_response], [get_version_info] and
    [send_update_file] of [OTAHost], [main] from the parsed arguments on, and
    the byte pattern of [file_creator.py]; it proves properties of the frame
    format and of the update session.

    Modelling choices.
    - Python [int] is [Z]; [bytes] is [list Z] whose elements satisfy
      [is_byte]; Python [str] is [string].
    - The serial port is a record: the bytes still to arrive ([rx], a list of
      events, so that a read which times out or faults is part of the input),
      what each call of [write] has put on the line so far ([tx]), and the
      answers of the port to the calls of [write] and [flush] to come
      ([wfaults]): a call returns or raises, and a [write] that raises may
      have put the first bytes of its packet on the line.  The console is
      the list of lines printed.
    - Methods are functions in a state monad with exceptions: a Python
      exception that no [except] clause catches ends the run with [Raise].
    - What the operating system answers while [connect] sets the port up
      is an argument of [connect] and [main] ([Startup]).
    - [time.sleep] returns and changes nothing; an interrupt from the
      keyboard is not part of the model.  The progress line of the packet
      loop is formatted from a floating point number and does not influence
      control flow; it is the only [print] of [ota_host.py] left out.
    - Of [file_creator.py] the bytes written are modelled.  Its argument
      [size_kb] is a Python number, an [int] or a [float]. *)

From Stdlib Require Import ZArith List String Ascii Bool DecimalString Lia.
Import ListNotations.
Open Scope Z_scope.

(** ** Enumerations and records *)

Inductive Command : Type :=
| INIT_UPDATE | SEND_PACKET | FINISH_UPDATE | GET_VERSION | ABORT_UPDATE.

Inductive Response : Type :=
| ACK | NACK | READY | CHECKSUM_ERROR | VERSION_INFO | ERROR.

Module Command_.
Definition value (c : Command) : Z :=
  match c with
  | INIT_UPDATE => 0x01
  | SEND_PACKET => 0x02
  | FINISH_UPDATE => 0x03
  | GET_VERSION => 0x04
  | ABORT_UPDATE => 0x05
  end.

Definition name (c : Command) : string :=
  match c with
  | INIT_UPDATE => "INIT_UPDATE"
  | SEND_PACKET => "SEND_PACKET"
  | FINISH_UPDATE => "FINISH_UPDATE"
  | GET_VERSION => "GET_VERSION"
  | ABORT_UPDATE => "ABORT_UPDATE"
  end.
End Command_.

Module Response_.
Definition value (r : Response) : Z :=
  match r with
  | ACK => 0x10
  | NACK => 0x11
  | READY => 0x12
  | CHECKSUM_ERROR => 0x13
  | VERSION_INFO => 0x14
  | ERROR => 0x15
  end.

Definition name (r : Response) : string :=
  match r with
  | ACK => "ACK"
  | NACK => "NACK"
  | READY => "READY"
  | CHECKSUM_ERROR => "CHECKSUM_ERROR"
  | VERSION_INFO => "VERSION_INFO"
  | ERROR => "ERROR"
  end.

(** [Response(response_code)]: [None] stands for the [ValueError]. *)
Definition of_value (v : Z) : option Response :=
  if v =? 0x10 then Some ACK
  else if v =? 0x11 then Some NACK
  else if v =? 0x12 then Some READY
  else if v =? 0x13 then Some CHECKSUM_ERROR
  else if v =? 0x14 then Some VERSION_INFO
  else if v =? 0x15 then Some ERROR
  else None.

Definition eqb (a b : Response) : bool := value a =? value b.

(** [response == X] for a [response] that may be [None]. *)
Definition equals (o : option Response) (x : Response) : bool :=
  match o with
  | Some r => eqb r x
  | None => false
  end.

(** [str(response)], as an f-string shows it. *)
Definition show (o : option Response) : string :=
  match o with
  | Some r => ("Response." ++ name r)%string
  | None => "None"%string
  end.
End Response_.

Record VersionInfo : Type := mkVersionInfo {
  current_version : Z;
  backup_version : Z;
  current_address : Z;
  backup_address : Z
}.

(** The attributes set by [OTAHost.__init__]; no method assigns them again. *)
Definition packet_size : Z := 16.
Definition max_retries : Z := 3.
Definition version_1_address : Z := 0x200000.
Definition version_2_address : Z := 0x300000.

(** ** Bytes and formatting *)

Definition is_byte (b : Z) : bool := (0 <=? b) && (b <=? 255).
Definition is_bytes (l : list Z) : bool := forallb is_byte l.

(** [len(x)] *)
Definition len {A : Type} (l : list A) : Z := Z.of_nat (List.length l).

(** The loop [c = 0; for byte in l: c ^= byte], started from [c]. *)
Definition xor_bytes (c : Z) (l : list Z) : Z := fold_left Z.lxor l c.

(** [range(n)] *)
Definition range (n : Z) : list Z := map Z.of_nat (seq 0 (Z.to_nat n)).

(** [l[a:b]] for indices that are not negative. *)
Definition slice (l : list Z) (a b : Z) : list Z :=
  firstn (Z.to_nat (b - a)) (skipn (Z.to_nat a) l).

Definition hex_digit (d : Z) : ascii :=
  nth (Z.to_nat d)
      ["0"; "1"; "2"; "3"; "4"; "5"; "6"; "7";
       "8"; "9"; "A"; "B"; "C"; "D"; "E"; "F"]%char "?"%char.

Fixpoint hex_digits (fuel : nat) (z : Z) (acc : string) : string :=
  match fuel with
  | O => acc
  | S fuel' =>
      let acc' := String (hex_digit (z mod 16)) acc in
      if z / 16 =? 0 then acc' else hex_digits fuel' (z / 16) acc'
  end.

Fixpoint zeros (n : nat) : string :=
  match n with
  | O => EmptyString
  | S n' => String "0"%char (zeros n')
  end.

(** [f"{z:0wX}"] for [0 <= z]: upper-case hexadecimal, padded with zeros on
    the left to [w] digits. *)
Definition format_X (w : nat) (z : Z) : string :=
  let s := hex_digits (S (Z.to_nat (Z.log2 z))) z EmptyString in
  (zeros (w - String.length s) ++ s)%string.

(** [f"{z}"] for an [int]. *)
Definition format_d (z : Z) : string := NilZero.string_of_int (Z.to_int z).

(** [sep.join(l)] *)
Fixpoint join (sep : string) (l : list string) : string :=
  match l with
  | [] => EmptyString
  | [s] => s
  | s :: l' => (s ++ sep ++ join sep l')%string
  end.

(** ** Exceptions and [struct] *)

Inductive exn : Type :=
| struct_error (msg : string)
| SerialException (msg : string)
| TypeError (msg : string).

(** [str(e)] *)
Definition exn_str (e : exn) : string :=
  match e with
  | struct_error msg => msg
  | SerialException msg => msg
  | TypeError msg => msg
  end.

Inductive result (A : Type) : Type :=
| Ret (a : A)
| Raise (e : exn).
Arguments Ret {A} a.
Arguments Raise {A} e.

(** One field of [struct.pack]: [size] bytes, little-endian, of a value that
    must fit them. *)
Fixpoint le_bytes (size : nat) (v : Z) : list Z :=
  match size with
  | O => []
  | S size' => (v mod 256) :: le_bytes size' (v / 256)
  end.

Definition pack_field (what : string) (size : nat) (v : Z) : result (list Z) :=
  if (0 <=? v) && (v <? 256 ^ Z.of_nat size)
  then Ret (le_bytes size v)
  else Raise (struct_error
                (what ++ " format requires 0 <= number <= "
                      ++ format_d (256 ^ Z.of_nat size - 1))%string).

Definition pack_B : Z -> result (list Z) := pack_field "ubyte" 1.
Definition pack_H : Z -> result (list Z) := pack_field "'H'" 2.
Definition pack_I : Z -> result (list Z) := pack_field "'I'" 4.

Definition result_bind {A B : Type} (r : result A) (k : A -> result B)
  : result B :=
  match r with
  | Ret a => k a
  | Raise e => Raise e
  end.

(** [struct.pack('BB', a, b)] *)
Definition pack_BB (a b : Z) : result (list Z) :=
  result_bind (pack_B a) (fun x =>
  result_bind (pack_B b) (fun y => Ret (x ++ y))).

(** [struct.pack('<HB', h, b)] *)
Definition pack_HB (h b : Z) : result (list Z) :=
  result_bind (pack_H h) (fun x =>
  result_bind (pack_B b) (fun y => Ret (x ++ y))).

(** [struct.pack('<III', a, b, c)] *)
Definition pack_III (a b c : Z) : result (list Z) :=
  result_bind (pack_I a) (fun x =>
  result_bind (pack_I b) (fun y =>
  result_bind (pack_I c) (fun z => Ret (x ++ y ++ z)))).

(** Little-endian value of a byte string: one field of [struct.unpack]. *)
Definition le_value (bs : list Z) : Z :=
  fold_right (fun b acc => b + 256 * acc) 0 bs.

(** [struct.unpack('<IIII', data)] for the 16 bytes of [data]. *)
Definition unpack_IIII (data : list Z) : Z * Z * Z * Z :=
  (le_value (slice data 0 4), le_value (slice data 4 8),
   le_value (slice data 8 12), le_value (slice data 12 16)).

(** ** The serial port and the state of a run *)

Inductive rx_event : Type :=
| RxByte (b : Z)                (* the next byte arrives in time *)
| RxTimeout                     (* the read in progress times out here *)
| RxFault (msg : string).       (* the read in progress raises *)

(** What the port answers to a call of [write] or of [flush]. *)
Inductive port_answer : Type :=
| Returns                                (* the call returns *)
| Fails (written : nat) (msg : string).  (* the call raises; a [write] has put
                                            the first [written] bytes of its
                                            packet on the line before *)

Record World : Type := mkWorld {
  port_open : bool;            (* [self.serial and self.serial.is_open] *)
  rx : list rx_event;          (* what the reads to come will see *)
  tx : list (list Z);          (* what each [write] has put on the line,
                                  oldest first *)
  wfaults : list port_answer;  (* the answers to the calls of [write] and
                                  [flush] to come, in the order of the calls;
                                  past its end every call returns *)
  console : list string        (* the lines printed, oldest first *)
}.

Definition M (A : Type) : Type := World -> result A * World.

Definition ret {A : Type} (a : A) : M A := fun w => (Ret a, w).

Definition raise {A : Type} (e : exn) : M A := fun w => (Raise e, w).

Definition bind {A B : Type} (m : M A) (k : A -> M B) : M B :=
  fun w =>
    match m w with
    | (Ret a, w') => k a w'
    | (Raise e, w') => (Raise e, w')
    end.

(** [try: m  except Exception as e: h e] *)
Definition try_except {A : Type} (m : M A) (h : exn -> M A) : M A :=
  fun w =>
    match m w with
    | (Ret a, w') => (Ret a, w')
    | (Raise e, w') => h e w'
    end.

Definition lift {A : Type} (r : result A) : M A := fun w => (r, w).

Declare Scope ota_scope.
Delimit Scope ota_scope with ota.
Notation "x <- m ;; k" := (bind m (fun x => k))
  (at level 61, m at next level, right associativity) : ota_scope.
Notation "' p <- m ;; k" := (bind m (fun x => let p := x in k))
  (at level 61, p pattern, m at next level, right associativity) : ota_scope.
Notation "m ;;; k" := (bind m (fun _ => k))
  (at level 61, right associativity) : ota_scope.
Open Scope ota_scope.

Definition print (line : string) : M unit :=
  fun w => (Ret tt, mkWorld (port_open w) (rx w) (tx w) (wfaults w)
                            (console w ++ [line])).

(** [self.serial.read(n)]: the bytes that arrive before [n] are there or the
    timeout strikes. *)
Fixpoint read_events (n : nat) (evs : list rx_event)
  : result (list Z) * list rx_event :=
  match n with
  | O => (Ret [], evs)
  | S n' =>
      match evs with
      | [] => (Ret [], [])
      | RxTimeout :: evs' => (Ret [], evs')
      | RxFault msg :: evs' => (Raise (SerialException msg), evs')
      | RxByte b :: evs' =>
          let (r, rest) := read_events n' evs' in
          (result_bind r (fun l => Ret (b :: l)), rest)
      end
  end.

Definition serial_read (n : Z) : M (list Z) :=
  fun w =>
    let (r, rest) := read_events (Z.to_nat n) (rx w) in
    (r, mkWorld (port_open w) rest (tx w) (wfaults w) (console w)).

(** The answer of the port to the next call, and the answers that remain. *)
Definition next_answer (answers : list port_answer)
  : port_answer * list port_answer :=
  match answers with
  | [] => (Returns, [])
  | answer :: more => (answer, more)
  end.

(** [self.serial.write(packet)]: the packet goes out, or the call raises
    with the first [written] bytes of the packet on the line (a write that
    times out, a port that goes away). *)
Definition serial_write (packet : list Z) : M unit :=
  fun w =>
    let (answer, more) := next_answer (wfaults w) in
    match answer with
    | Returns =>
        (Ret tt, mkWorld (port_open w) (rx w) (tx w ++ [packet]) more
                         (console w))
    | Fails written msg =>
        (Raise (SerialException msg),
         mkWorld (port_open w) (rx w) (tx w ++ [firstn written packet]) more
                 (console w))
    end.

(** [self.serial.flush()]: it writes nothing itself; what [write] has put
    on the line stays there when it raises. *)
Definition serial_flush : M unit :=
  fun w =>
    let (answer, more) := next_answer (wfaults w) in
    match answer with
    | Returns =>
        (Ret tt, mkWorld (port_open w) (rx w) (tx w) more (console w))
    | Fails _ msg =>
        (Raise (SerialException msg),
         mkWorld (port_open w) (rx w) (tx w) more (console w))
    end.

Definition get_port_open : M bool := fun w => (Ret (port_open w), w).

(** ** [OTAHost.send_command] *)

(** The packet built inside the [try]: header, data and the XOR of both. *)
Definition build_frame (code : Z) (data : list Z) : result (list Z) :=
  let length := len data in
  result_bind (pack_BB code length) (fun header =>
  let packet := header ++ data in
  let checksum := xor_bytes 0 packet in
  result_bind (pack_B checksum) (fun trailer =>
  Ret (packet ++ trailer))).

Definition sending_line (cmd : Command) (packet : list Z) : string :=
  ("Sending " ++ Command_.name cmd ++ ": "
    ++ join " " (map (format_X 2) (firstn 10 packet))
    ++ (if (10 <? len packet)%Z then "..." else EmptyString))%string.

Definition send_command (cmd : Command) (data : list Z) : M bool :=
  opened <- get_port_open ;;
  if negb opened then
    print "Serial connection not open" ;;;
    ret false
  else
    try_except
      (packet <- lift (build_frame (Command_.value cmd) data) ;;
       print (sending_line cmd packet) ;;;
       serial_write packet ;;;
       serial_flush ;;;
       ret true)
      (fun e =>
         print ("Failed to send command: " ++ exn_str e)%string ;;;
         ret false).

(** ** [OTAHost.read_response] *)

Definition read_response : M (option Response * list Z) :=
  opened <- get_port_open ;;
  if negb opened then ret (None, [])
  else
    try_except
      (header <- serial_read 2 ;;
       if negb (len header =? 2) then
         print "Failed to read response header" ;;;
         ret (None, [])
       else
         let response_code := nth 0 header 0 in
         let length := nth 1 header 0 in
         print ("Received response: 0x" ++ format_X 2 response_code
                  ++ ", length: " ++ format_d length)%string ;;;
         data <- (if 0 <? length then serial_read length else ret []) ;;
         checksum_byte <- serial_read 1 ;;
         if negb (len checksum_byte =? 1) then
           print "Failed to read checksum" ;;;
           ret (None, [])
         else
           let expected_checksum :=
             xor_bytes (Z.lxor response_code length) data in
           if negb (expected_checksum =? nth 0 checksum_byte 0) then
             print ("Response checksum error: expected "
                      ++ format_X 2 expected_checksum ++ ", got "
                      ++ format_X 2 (nth 0 checksum_byte 0))%string ;;;
             ret (None, [])
           else
             match Response_.of_value response_code with
             | Some response => ret (Some response, data)
             | None =>
                 print ("Unknown response code: 0x"
                          ++ format_X 2 response_code)%string ;;;
                 ret (None, [])
             end)
      (fun e =>
         print ("Failed to read response: " ++ exn_str e)%string ;;;
         ret (None, [])).

(** ** [OTAHost.get_version_info] *)

Definition get_version_info : M (option VersionInfo) :=
  sent <- send_command GET_VERSION [] ;;
  if negb sent then ret None
  else
    '(response, data) <- read_response ;;
    if negb (Response_.equals response VERSION_INFO) || negb (len data =? 16)
    then
      print ("Failed to get version info: response=" ++ Response_.show response
               ++ ", data_len=" ++ format_d (len data))%string ;;;
      ret None
    else
      let '(current_ver, backup_ver, current_addr, backup_addr) :=
        unpack_IIII data in
      ret (Some (mkVersionInfo current_ver backup_ver current_addr backup_addr)).

(** ** [OTAHost.send_update_file] *)

(** What the path given to [send_update_file] leads to. *)
Inductive file : Type :=
| file_missing                    (* [os.path.exists] is false *)
| file_unreadable (msg : string)  (* [open] or [read] raises *)
| file_bytes (data : list Z).     (* [f.read()] returns [data] *)

(** "Determine target address" *)
Definition target_address (version_info : VersionInfo) : Z :=
  if current_version version_info =? 0 then version_1_address
  else if current_address version_info =? version_1_address
       then version_2_address
       else version_1_address.

Definition error_messages (err_code : Z) : option string :=
  if err_code =? 1 then Some "Bad length"%string
  else if err_code =? 2 then Some "Update already in progress"%string
  else if err_code =? 3 then Some "Invalid file size"%string
  else if err_code =? 4 then Some "Invalid target address"%string
  else if err_code =? 5 then Some "Flash erase failed"%string
  else None.

(** [error_messages.get(err_code, f'Unknown error {err_code}')] *)
Definition error_message (err_code : Z) : string :=
  match error_messages err_code with
  | Some msg => msg
  | None => ("Unknown error " ++ format_d err_code)%string
  end.

(** "Wait for READY response": the [for attempt in range(max_retries)] loop
    with its [else].  [true] is the [break], [false] a [return False]. *)
Fixpoint ready_loop (attempts : list Z) : M bool :=
  match attempts with
  | [] =>
      print "ESP32 did not respond READY after retries" ;;;
      ret false
  | attempt :: attempts' =>
      '(response, data) <- read_response ;;
      if Response_.equals response READY then
        print "ESP32 ready for update" ;;;
        ret true
      else if Response_.equals response ERROR then
        (if 1 <=? len data then
           let err_code := nth 0 data 0 in
           print ("ESP32 error: " ++ error_message err_code)%string
         else
           print "ESP32 returned generic error") ;;;
        ret false
      else if Response_.equals response NACK then
        print "ESP32 rejected init update" ;;;
        ret false
      else
        print ("Unexpected response: " ++ Response_.show response
                 ++ ", retrying... (" ++ format_d (attempt + 1) ++ "/"
                 ++ format_d max_retries ++ ")")%string ;;;
        ready_loop attempts'
  end.

(** The 16 bytes of packet [packet_num], padded with [0xFF]. *)
Definition packet_data (file_data : list Z) (packet_num : Z) : list Z :=
  let file_size := len file_data in
  let offset := packet_num * packet_size in
  let end_offset := Z.min (offset + packet_size) file_size in
  let packet_data := slice file_data offset end_offset in
  if len packet_data <? packet_size
  then packet_data ++ repeat 0xFF (Z.to_nat (packet_size - len packet_data))
  else packet_data.

(** "Create packet: seq_num(2) + checksum(1) + data(16)" *)
Definition packet_content (file_data : list Z) (packet_num : Z)
  : result (list Z) :=
  let data := packet_data file_data packet_num in
  let checksum := xor_bytes 0 data in
  result_bind (pack_HB packet_num checksum) (fun header =>
  Ret (header ++ data)).

(** The [for retry in range(max_retries)] loop; the result is [success]. *)
Fixpoint retry_loop (packet_num : Z) (content : list Z) (retries : list Z)
  : M bool :=
  match retries with
  | [] => ret false
  | retry :: retries' =>
      sent <- send_command SEND_PACKET content ;;
      if negb sent then
        print ("Failed to send packet " ++ format_d packet_num)%string ;;;
        retry_loop packet_num content retries'
      else
        '(response, _) <- read_response ;;
        if Response_.equals response ACK then ret true
        else if Response_.equals response CHECKSUM_ERROR then
          print ("Checksum error for packet " ++ format_d packet_num
                   ++ ", retrying...")%string ;;;
          retry_loop packet_num content retries'
        else if Response_.equals response NACK then
          print ("ESP32 rejected packet " ++ format_d packet_num)%string ;;;
          ret false
        else
          print ("Unexpected response for packet " ++ format_d packet_num
                   ++ ": " ++ Response_.show response)%string ;;;
          retry_loop packet_num content retries'
  end.

(** The [for packet_num in range(total_packets)] loop.  [true]: the loop ran
    to its end; [false]: it left through [return False]. *)
Fixpoint packet_loop (file_data : list Z) (packet_nums : list Z) : M bool :=
  match packet_nums with
  | [] => ret true
  | packet_num :: packet_nums' =>
      content <- lift (packet_content file_data packet_num) ;;
      success <- retry_loop packet_num content (range max_retries) ;;
      if negb success then
        print ("Failed to send packet " ++ format_d packet_num
                 ++ " after retries")%string ;;;
        send_command ABORT_UPDATE [] ;;;
        ret false
      else
        packet_loop file_data packet_nums'
  end.

Definition total_packets (file_size : Z) : Z :=
  (file_size + packet_size - 1) / packet_size.

(** "Finish update" *)
Definition finish_update : M bool :=
  sent <- send_command FINISH_UPDATE [] ;;
  if negb sent then
    print "Failed to send finish command" ;;;
    ret false
  else
    '(response, _) <- read_response ;;
    if negb (Response_.equals response ACK) then
      print ("Update finalization failed. Response: "
               ++ Response_.show response)%string ;;;
      ret false
    else
      print "Update completed successfully!" ;;;
      ret true.

(** "Initialize update", "Send file in packets" and "Finish update": the
    part of [send_update_file] that follows the reading of the file. *)
Definition transfer_file (new_version target : Z) (file_data : list Z)
  : M bool :=
  let file_size := len file_data in
  print ("File size: " ++ format_d file_size ++ " bytes")%string ;;;
  init_data <- lift (pack_III new_version target file_size) ;;
  sent <- send_command INIT_UPDATE init_data ;;
  if negb sent then
    print "Failed to send init command" ;;;
    ret false
  else
    print "Waiting for ESP32 to be ready..." ;;;
    ready <- ready_loop (range max_retries) ;;
    if negb ready then ret false
    else
      print ("Sending " ++ format_d (total_packets file_size)
               ++ " packets...")%string ;;;
      done <- packet_loop file_data (range (total_packets file_size)) ;;
      if negb done then ret false
      else
        print "Data transfer complete. Finalizing update..." ;;;
        finish_update.

Definition send_update_file (filepath : string) (f : file) (new_version : Z)
  : M bool :=
  match f with
  | file_missing =>
      print ("File not found: " ++ filepath)%string ;;;
      ret false
  | _ =>
      version_info <- get_version_info ;;
      match version_info with
      | None =>
          print "Failed to get version information" ;;;
          ret false
      | Some version_info =>
          print ("Current version: "
                   ++ format_d (current_version version_info))%string ;;;
          print ("Backup version: "
                   ++ format_d (backup_version version_info))%string ;;;
          let target := target_address version_info in
          print ("Installing version " ++ format_d new_version
                   ++ " to address 0x" ++ format_X 8 target)%string ;;;
          match f with
          | file_bytes file_data => transfer_file new_version target file_data
          | file_unreadable msg =>
              print ("Failed to read file: " ++ msg)%string ;;;
              ret false
          | file_missing => ret false
          end
      end
  end.

(** ** [OTAHost.connect], [OTAHost.disconnect] and [main] *)

(** [self.serial.close()] *)
Definition serial_close : M unit :=
  fun w => (Ret tt, mkWorld false (rx w) (tx w) (wfaults w) (console w)).

(** [OTAHost.disconnect] *)
Definition disconnect : M unit :=
  opened <- get_port_open ;;
  if opened then
    serial_close ;;;
    print "Disconnected from ESP32"
  else ret tt.

(** What the operating system answers to the three calls by which
    [connect] sets the port up: [Some msg] for an exception. *)
Record Startup : Type := mkStartup {
  open_answer : option string;          (* [serial.Serial(...)] *)
  reset_input_answer : option string;   (* [reset_input_buffer()] *)
  reset_output_answer : option string   (* [reset_output_buffer()] *)
}.

(** [self.serial = serial.Serial(port, baudrate, ...)]: when the call
    raises, [self.serial] stays [None]. *)
Definition serial_open (answer : option string) : M unit :=
  fun w =>
    match answer with
    | Some msg => (Raise (SerialException msg), w)
    | None => (Ret tt, mkWorld true (rx w) (tx w) (wfaults w) (console w))
    end.

(** [time.sleep(seconds)] *)
Definition sleep (seconds : Z) : M unit := ret tt.

(** [self.serial.reset_input_buffer()] and [self.serial.reset_output_buffer()]:
    the call returns or raises.  It changes nothing else here: [rx] is what
    the reads to come see and [tx] what has been written. *)
Definition serial_reset_buffer (answer : option string) : M unit :=
  fun w =>
    match answer with
    | Some msg => (Raise (SerialException msg), w)
    | None => (Ret tt, w)
    end.

(** [OTAHost.connect]: the sleep and the two resets are inside the [try],
    on a port that is open by then. *)
Definition connect (port : string) (startup : Startup) : M bool :=
  try_except
    (serial_open (open_answer startup) ;;;
     sleep 2 ;;;
     serial_reset_buffer (reset_input_answer startup) ;;;
     serial_reset_buffer (reset_output_answer startup) ;;;
     print ("Connected to ESP32 on " ++ port)%string ;;;
     ret true)
    (fun e =>
       print ("Connection failed: " ++ exn_str e)%string ;;;
       ret false).

(** [try: m  finally: f] *)
Definition try_finally {A : Type} (m : M A) (f : M unit) : M A :=
  fun w =>
    let (r, w') := m w in
    match f w' with
    | (Ret _, w'') => (r, w'')
    | (Raise e, w'') => (Raise e, w'')
    end.

(** The parsed command line of [main]. *)
Record Args : Type := mkArgs {
  port : string;
  baudrate : Z;
  file_arg : option string;     (* [args.file] *)
  version_arg : option Z;       (* [args.version] *)
  info : bool
}.

(** [args.file and args.version]: both given, the path not empty and the
    version not 0. *)
Definition update_requested (args : Args) : option (string * Z) :=
  match file_arg args, version_arg args with
  | Some path, Some version =>
      if (String.length path =? 0)%nat || (version =? 0) then None
      else Some (path, version)
  | _, _ => None
  end.

Definition print_version_info (version_info : VersionInfo) : M unit :=
  print ("Current Version: "
           ++ format_d (current_version version_info))%string ;;;
  print ("Backup Version: "
           ++ format_d (backup_version version_info))%string ;;;
  print ("Current Address: 0x"
           ++ format_X 8 (current_address version_info))%string ;;;
  print ("Backup Address: 0x"
           ++ format_X 8 (backup_address version_info))%string.

(** The [try] block of [main]: [Some code] is a [return code] inside it. *)
Definition main_body (args : Args) (files : string -> file) : M (option Z) :=
  if info args then
    version_info <- get_version_info ;;
    match version_info with
    | Some version_info => print_version_info version_info ;;; ret None
    | None =>
        print "Failed to get version information" ;;;
        ret (Some 1)
    end
  else
    match update_requested args with
    | Some (path, version) =>
        updated <- send_update_file path (files path) version ;;
        if updated then
          print "Update successful!" ;;;
          version_info <- get_version_info ;;
          match version_info with
          | Some version_info =>
              print ("New current version: "
                       ++ format_d (current_version version_info))%string ;;;
              ret None
          | None => ret None
          end
        else
          print "Update failed!" ;;;
          ret (Some 1)
    | None =>
        print "Use --info to get version info, or --file and --version to perform update" ;;;
        ret None
    end.

(** [main], from the parsed arguments on; the result is the exit code. *)
Definition main (args : Args) (startup : Startup)
    (files : string -> file) : M Z :=
  connected <- connect (port args) startup ;;
  if negb connected then ret 1
  else
    returned <- try_finally (main_body args files) disconnect ;;
    match returned with
    | Some code => ret code
    | None => ret 0
    end.

(** ** [file_creator.py] *)









(** * Vocabulary of the statements *)

(** The frame of [code] and [data] as it travels: code, length, data and
    the XOR of all of them. *)
Definition wire (code : Z) (data : list Z) : list Z :=
  code :: len data :: data ++ [xor_bytes 0 (code :: len data :: data)].

(** What the line delivers when the device answers [r] with [data]. *)
Definition reply (r : Response) (data : list Z) : list rx_event :=
  map RxByte (wire (Response_.value r) data).

(** The packet that [send_command] writes for [c] and [data]. *)
Definition request (c : Command) (data : list Z) : list Z :=
  wire (Command_.value c) data.

(** [runs m input r sent lines]: on an open port whose calls of [write]
    and [flush] all return, [m]
    consumes exactly [input] of what arrives, whatever follows it, returns
    (or raises) [r], writes the packets [sent] and prints [lines]. *)
Definition runs {A : Type} (m : M A) (input : list rx_event) (r : result A)
    (sent : list (list Z)) (lines : list string) : Prop :=
  forall rest txs c,
    m (mkWorld true (input ++ rest) txs [] c)
    = (r, mkWorld true rest (txs ++ sent) [] (c ++ lines)).

(** [runs], the lines printed left open. *)
Definition exchange {A : Type} (m : M A) (input : list rx_event) (r : result A)
    (sent : list (list Z)) : Prop :=
  exists lines, runs m input r sent lines.

(** An open port on which [evs] is all that arrives. *)
Definition idle_port (evs : list rx_event) : World := mkWorld true evs [] [] [].

(** The lines that [read_response] prints. *)
Definition received_line (code length : Z) : string :=
  ("Received response: 0x" ++ format_X 2 code ++ ", length: " ++ format_d length)%string.

Definition checksum_error_line (expected got : Z) : string :=
  ("Response checksum error: expected " ++ format_X 2 expected ++ ", got " ++ format_X 2 got)%string.

Definition unknown_code_line (code : Z) : string :=
  ("Unknown response code: 0x" ++ format_X 2 code)%string.

Definition header_failure_line : string := "Failed to read response header".

Definition checksum_read_failure_line : string := "Failed to read checksum".

Definition read_fault_line (e : exn) : string :=
  ("Failed to read response: " ++ exn_str e)%string.


(** The read of the data in [read_response]: none for a length of 0. *)
Definition data_read (length : Z) (rest1 : list rx_event)
  : result (list Z) * list rx_event :=
  if 0 <? length then read_events (Z.to_nat length) rest1
  else (Ret [], rest1).

(** The [VersionInfo] that [get_version_info] builds from 16 bytes. *)
Definition version_info_of (data : list Z) : VersionInfo :=
  let '(current_ver, backup_ver, current_addr, backup_addr) := unpack_IIII data in
  mkVersionInfo current_ver backup_ver current_addr backup_addr.

(** The 12 bytes of [init_data]. *)
Definition init_data (new_version target file_size : Z) : list Z :=
  le_bytes 4 new_version ++ le_bytes 4 target ++ le_bytes 4 file_size.

(** The values that [struct.pack] takes for an [I]. *)
Definition u32 (v : Z) : Prop := 0 <= v < 2 ^ 32.

(** The content of the [SEND_PACKET] command for packet [packet_num]:
    sequence number, XOR of the data, data. *)
Definition packet_record (file_data : list Z) (packet_num : Z) : list Z :=
  le_bytes 2 packet_num
  ++ [xor_bytes 0 (packet_data file_data packet_num)]
  ++ packet_data file_data packet_num.

(** The [SEND_PACKET] command that carries packet [packet_num]. *)
Definition packet_frame (file_data : list Z) (packet_num : Z) : list Z :=
  request SEND_PACKET (packet_record file_data packet_num).

(** The slice of the image that packet [packet_num] carries:
    [file_data[16 * packet_num : 16 * packet_num + 16]]. *)
Definition chunk (file_data : list Z) (packet_num : Z) : list Z :=
  slice file_data (packet_num * packet_size) (packet_num * packet_size + packet_size).

(** What the device sends up to and including [READY]. *)
Definition handshake (vdata : list Z) : list rx_event :=
  reply VERSION_INFO vdata ++ reply READY [].

(** What the host has written when the packet loop starts. *)
Definition opening (new_version : Z) (vdata : list Z) (file_size : Z)
  : list (list Z) :=
  [request GET_VERSION [];
   request INIT_UPDATE
     (init_data new_version (target_address (version_info_of vdata)) file_size)].

(** How many of the packets written carry command [cmd]. *)
Definition count_command (cmd : Command) (sent : list (list Z)) : nat :=
  List.length (filter (fun frame => nth 0 frame 0 =? Command_.value cmd) sent).

(** What the handshake loop takes for "no answer yet": a read that times
    out, or a response that is none of [READY], [ERROR] and [NACK]. *)
Inductive stray : list rx_event -> Prop :=
| stray_timeout : stray [RxTimeout]
| stray_ack data : stray (reply ACK data)
| stray_checksum_error data : stray (reply CHECKSUM_ERROR data)
| stray_version_info data : stray (reply VERSION_INFO data).

(** What the retry loop of a packet takes for a failed attempt: a read that
    times out, [CHECKSUM_ERROR], or a response that is neither [ACK] nor
    [NACK]. *)
Inductive failed_attempt : list rx_event -> Prop :=
| failed_timeout : failed_attempt [RxTimeout]
| failed_checksum_error data : failed_attempt (reply CHECKSUM_ERROR data)
| failed_ready data : failed_attempt (reply READY data)
| failed_version_info data : failed_attempt (reply VERSION_INFO data)
| failed_error data : failed_attempt (reply ERROR data).

(** The ways in which a send can fail on an open port: [write] raises,
    with the first [written] bytes of the packet on the line, or [write]
    returns and [flush] raises. *)
Inductive send_failure : Type :=
| write_raises (written : nat) (msg : string)
| flush_raises (msg : string).

(** The answers of the port that make a send fail in that way. *)
Definition answers_of (f : send_failure) : list port_answer :=
  match f with
  | write_raises written msg => [Fails written msg]
  | flush_raises msg => [Returns; Fails 0 msg]
  end.

(** What a send of [frame] that fails in that way leaves on the line. *)
Definition on_line (frame : list Z) (f : send_failure) : list Z :=
  match f with
  | write_raises written _ => firstn written frame
  | flush_raises _ => frame
  end.

Definition failure_message (f : send_failure) : string :=
  match f with
  | write_raises _ msg => msg
  | flush_raises msg => msg
  end.

(** [piece] is the first bytes of [frame], or all of it. *)
Definition beginning_of (frame piece : list Z) : Prop :=
  exists n : nat, piece = firstn n frame.

(** [sent] is what a packet loop that runs to its end has put on the line
    for the packets [nums]: for each packet in turn, at most two attempts
    that failed -- each the frame of the packet or, when its [write] raised,
    the first bytes of it -- and then the frame that was acknowledged. *)
Inductive delivered (file_data : list Z) : list Z -> list (list Z) -> Prop :=
| delivered_nil : delivered file_data [] []
| delivered_cons k failed nums sent :
    (List.length failed <= 2)%nat ->
    Forall (beginning_of (packet_frame file_data k)) failed ->
    delivered file_data nums sent ->
    delivered file_data (k :: nums)
              (failed ++ packet_frame file_data k :: sent).

(** The failure kinds that the specification names for the receive side. *)
Inductive receive_failure : Type :=
| Truncated | ChecksumMismatch | UnknownCode.

(** The frame with bit [bit] of its byte number [index] inverted. *)
Fixpoint flip_bit (frame : list Z) (index : nat) (bit : Z) : list Z :=
  match frame, index with
  | [], _ => []
  | b :: frame', O => Z.lxor b (2 ^ bit) :: frame'
  | b :: frame', S index' => b :: flip_bit frame' index' bit
  end.

(** Sample inputs: a device without firmware, a 34-byte image, and an image
    of one byte more than 65536 packets. *)
Definition sample_version_data : list Z :=
  [0; 0; 0; 0; 0; 0; 0; 0; 0; 0; 32; 0; 0; 0; 48; 0].

Definition sample_image : list Z := map Z.of_nat (seq 1 34).

Definition large_image : list Z := repeat 0 (Z.to_nat (16 * 65536 + 1)).

(** * Proofs *)

Lemma is_byte_iff b : is_byte b = true <-> 0 <= b <= 255.
Proof. unfold is_byte. rewrite andb_true_iff, Z.leb_le, Z.leb_le. tauto. Qed.

Lemma lxor_byte a b : 0 <= a <= 255 -> 0 <= b <= 255 -> 0 <= Z.lxor a b <= 255.
Proof.
  intros Ha Hb.
  assert (H0 : 0 <= Z.lxor a b) by (apply Z.lxor_nonneg; split; lia).
  split; [exact H0|].
  destruct (Z.eq_dec (Z.lxor a b) 0) as [E|E]; [lia|].
  assert (Hl : Z.log2 (Z.lxor a b) < 8).
  { eapply Z.le_lt_trans; [apply Z.log2_lxor; lia|].
    apply Z.max_lub_lt.
    - destruct (Z.eq_dec a 0); [subst; simpl; lia|]. apply Z.log2_lt_pow2; lia.
    - destruct (Z.eq_dec b 0); [subst; simpl; lia|]. apply Z.log2_lt_pow2; lia. }
  apply Z.log2_lt_pow2 in Hl; lia.
Qed.

Lemma xor_bytes_byte l : forall c,
  0 <= c <= 255 -> is_bytes l = true -> 0 <= xor_bytes c l <= 255.
Proof.
  unfold xor_bytes, is_bytes.
  induction l as [|b l IH]; intros c Hc Hl; simpl in *; [exact Hc|].
  apply andb_true_iff in Hl as [Hb Hl]. apply is_byte_iff in Hb.
  apply IH; [apply lxor_byte|]; assumption.
Qed.

Lemma pack_B_byte v : 0 <= v <= 255 -> pack_B v = Ret [v].
Proof.
  intros H. unfold pack_B, pack_field.
  replace ((0 <=? v) && (v <? 256 ^ Z.of_nat 1)) with true.
  - simpl. rewrite Z.mod_small by lia. reflexivity.
  - symmetry. apply andb_true_iff. split; [apply Z.leb_le|apply Z.ltb_lt]; simpl; lia.
Qed.

Lemma build_frame_wire code data :
  0 <= code <= 255 -> len data <= 255 -> is_bytes data = true ->
  build_frame code data = Ret (wire code data).
Proof.
  intros Hc Hn Hd. unfold build_frame, pack_BB.
  assert (Hlen : 0 <= len data <= 255) by (unfold len in *; lia).
  rewrite (pack_B_byte code Hc), (pack_B_byte (len data) Hlen). cbn [result_bind app].
  rewrite pack_B_byte.
  - reflexivity.
  - apply xor_bytes_byte; [lia|]. cbn [is_bytes forallb].
    destruct Hc, Hlen.
    rewrite (proj2 (is_byte_iff code)), (proj2 (is_byte_iff (len data))) by lia. exact Hd.
Qed.

Lemma read_events_bytes l : forall rest,
  read_events (List.length l) (map RxByte l ++ rest) = (Ret l, rest).
Proof.
  induction l as [|b l IH]; intros rest; simpl; [reflexivity|].
  rewrite IH. reflexivity.
Qed.

Lemma serial_read_bytes n l o rest txs wf c :
  n = len l ->
  serial_read n (mkWorld o (map RxByte l ++ rest) txs wf c)
  = (Ret l, mkWorld o rest txs wf c).
Proof.
  intros ->. unfold serial_read, len. cbn [rx port_open tx wfaults console].
  rewrite Nat2Z.id, read_events_bytes. reflexivity.
Qed.

Lemma read_response_frame code data cs rest txs wf c :
  read_response
    (mkWorld true (map RxByte (code :: len data :: data ++ [cs]) ++ rest) txs wf c)
  = let c1 := c ++ [received_line code (len data)] in
    let expected := xor_bytes (Z.lxor code (len data)) data in
    if expected =? cs then
      match Response_.of_value code with
      | Some r => (Ret (Some r, data), mkWorld true rest txs wf c1)
      | None => (Ret (None, []),
                 mkWorld true rest txs wf (c1 ++ [unknown_code_line code]))
      end
    else (Ret (None, []),
          mkWorld true rest txs wf (c1 ++ [checksum_error_line expected cs])).
Proof.
  unfold read_response.
  unfold bind at 1. unfold get_port_open at 1. cbn [port_open negb].
  unfold try_except, bind at 1.
  change (map RxByte (code :: len data :: data ++ [cs]) ++ rest)
    with (map RxByte [code; len data] ++ (map RxByte (data ++ [cs]) ++ rest)).
  rewrite (serial_read_bytes 2 [code; len data]) by reflexivity.
  change (len [code; len data] =? 2) with true. cbn [negb nth].
  unfold bind at 1, print at 1. cbn [port_open rx tx wfaults console].
  unfold bind at 1.
  rewrite map_app, <- app_assoc.
  assert (Hdata : (if 0 <? len data then serial_read (len data) else ret [])
                    (mkWorld true (map RxByte data ++ map RxByte [cs] ++ rest) txs wf
                       (c ++ [received_line code (len data)]))
                  = (Ret data, mkWorld true (map RxByte [cs] ++ rest) txs wf
                       (c ++ [received_line code (len data)]))).
  { destruct (0 <? len data) eqn:E.
    - apply serial_read_bytes. reflexivity.
    - destruct data; [reflexivity|]. unfold len in E. simpl List.length in E.
      apply Z.ltb_ge in E. lia. }
  unfold received_line in Hdata.
  rewrite Hdata. clear Hdata.
  unfold bind at 1.
  rewrite (serial_read_bytes 1 [cs]) by reflexivity.
  change (len [cs] =? 1) with true. cbn [negb nth].
  cbv zeta.
  destruct (xor_bytes (Z.lxor code (len data)) data =? cs) eqn:E; cbn [negb].
  - destruct (Response_.of_value code); reflexivity.
  - reflexivity.
Qed.

Section Runs.
Context {A B : Type}.

Lemma runs_ret (a : A) : runs (ret a) [] (Ret a) [] [].
Proof. intros rest txs c. unfold ret. rewrite !app_nil_r. reflexivity. Qed.

Lemma runs_lift (r : result A) : runs (lift r) [] r [] [].
Proof. intros rest txs c. unfold lift. rewrite !app_nil_r. reflexivity. Qed.

Lemma runs_bind (m : M A) (k : A -> M B) a i1 s1 l1 i2 r s2 l2 :
  runs m i1 (Ret a) s1 l1 -> runs (k a) i2 r s2 l2 ->
  runs (bind m k) (i1 ++ i2) r (s1 ++ s2) (l1 ++ l2).
Proof.
  intros Hm Hk rest txs c. unfold bind.
  rewrite <- app_assoc, Hm, Hk, !app_assoc. reflexivity.
Qed.

Lemma runs_bind_raise (m : M A) (k : A -> M B) e i s l :
  runs m i (Raise e) s l -> runs (bind m k) i (Raise e) s l.
Proof. intros Hm rest txs c. unfold bind. rewrite Hm. reflexivity. Qed.
End Runs.

Lemma runs_print line : runs (print line) [] (Ret tt) [] [line].
Proof. intros rest txs c. unfold print. cbn. rewrite app_nil_r. reflexivity. Qed.

Lemma runs_print_then {A : Type} line (m : M A) i r s l :
  runs m i r s l -> runs (print line ;;; m) i r s (line :: l).
Proof. intros H. exact (runs_bind _ _ _ _ _ _ _ _ _ _ (runs_print line) H). Qed.

Lemma xor_bytes_header code n data :
  xor_bytes 0 (code :: n :: data) = xor_bytes (Z.lxor code n) data.
Proof. unfold xor_bytes. cbn [fold_left]. rewrite Z.lxor_0_l. reflexivity. Qed.

Lemma of_value_value r : Response_.of_value (Response_.value r) = Some r.
Proof. destruct r; reflexivity. Qed.

Lemma runs_read_response r data :
  runs read_response (reply r data) (Ret (Some r, data)) []
       [received_line (Response_.value r) (len data)].
Proof.
  intros rest txs c. unfold reply, wire.
  rewrite read_response_frame. cbv zeta.
  rewrite xor_bytes_header, Z.eqb_refl, of_value_value, app_nil_r. reflexivity.
Qed.

Lemma command_value_byte cmd : 0 <= Command_.value cmd <= 255.
Proof. destruct cmd; simpl; lia. Qed.

Lemma runs_send_command cmd data :
  len data <= 255 -> is_bytes data = true ->
  runs (send_command cmd data) [] (Ret true) [request cmd data]
       [sending_line cmd (request cmd data)].
Proof.
  intros Hn Hd rest txs c. unfold send_command.
  unfold bind at 1. unfold get_port_open at 1. cbn [port_open negb].
  unfold try_except, bind at 1, lift.
  rewrite (build_frame_wire _ _ (command_value_byte cmd) Hn Hd).
  reflexivity.
Qed.

Lemma send_command_ok cmd data evs txs c :
  len data <= 255 -> is_bytes data = true ->
  send_command cmd data (mkWorld true evs txs [] c)
  = (Ret true, mkWorld true evs (txs ++ [request cmd data]) []
                       (c ++ [sending_line cmd (request cmd data)])).
Proof. intros Hn Hd. exact (runs_send_command cmd data Hn Hd evs txs c). Qed.

Lemma read_response_reply r data rest txs c :
  read_response (mkWorld true (reply r data ++ rest) txs [] c)
  = (Ret (Some r, data),
     mkWorld true rest txs [] (c ++ [received_line (Response_.value r) (len data)])).
Proof.
  rewrite (runs_read_response r data rest txs c), app_nil_r. reflexivity.
Qed.

Lemma print_eq line o evs txs wf c :
  print line (mkWorld o evs txs wf c) = (Ret tt, mkWorld o evs txs wf (c ++ [line])).
Proof. reflexivity. Qed.

Section RetryLoop.
Variables (packet_num : Z) (content : list Z).
Hypothesis content_len : len content <= 255.
Hypothesis content_bytes : is_bytes content = true.

Let sent := request SEND_PACKET content.

Lemma retry_loop_ack retry retries :
  exists lines,
    runs (retry_loop packet_num content (retry :: retries))
         (reply ACK []) (Ret true) [sent] lines.
Proof.
  eexists. intros rest txs c. cbn [retry_loop].
  unfold bind at 1. rewrite send_command_ok by assumption. cbn [negb].
  unfold bind at 1. rewrite read_response_reply.
  cbn [Response_.equals Response_.eqb Response_.value Z.eqb Pos.eqb].
  unfold ret. rewrite <- app_assoc. reflexivity.
Qed.

Lemma retry_loop_checksum_error retry retries input r s :
  (exists lines, runs (retry_loop packet_num content retries) input r s lines) ->
  exists lines,
    runs (retry_loop packet_num content (retry :: retries))
         (reply CHECKSUM_ERROR [] ++ input) r (sent :: s) lines.
Proof.
  intros [lines H]. eexists. intros rest txs c. cbn [retry_loop].
  unfold bind at 1. rewrite send_command_ok by assumption. cbn [negb].
  unfold bind at 1. rewrite <- app_assoc, read_response_reply.
  cbn [Response_.equals Response_.eqb Response_.value Z.eqb Pos.eqb].
  unfold bind at 1. rewrite print_eq.
  rewrite H. rewrite <- !app_assoc. cbn [app]. reflexivity.
Qed.


Lemma retry_loop_exhausted :
  runs (retry_loop packet_num content []) [] (Ret false) [] [].
Proof. apply runs_ret. Qed.
End RetryLoop.

Lemma is_bytes_app l1 l2 :
  is_bytes (l1 ++ l2) = is_bytes l1 && is_bytes l2.
Proof. apply forallb_app. Qed.

Lemma is_bytes_firstn n l : is_bytes l = true -> is_bytes (firstn n l) = true.
Proof.
  revert n. induction l as [|b l IH]; intros [|n] H; simpl in *; try reflexivity.
  apply andb_true_iff in H as [Hb Hl]. rewrite Hb, (IH n Hl). reflexivity.
Qed.

Lemma is_bytes_skipn n l : is_bytes l = true -> is_bytes (skipn n l) = true.
Proof.
  revert n. induction l as [|b l IH]; intros [|n] H; simpl in *; try reflexivity.
  - exact H.
  - apply andb_true_iff in H as [_ Hl]. exact (IH n Hl).
Qed.

Lemma is_bytes_repeat b n : is_byte b = true -> is_bytes (repeat b n) = true.
Proof. intros H. induction n; simpl; [reflexivity|]. rewrite H. exact IHn. Qed.

Lemma is_bytes_slice l a b : is_bytes l = true -> is_bytes (slice l a b) = true.
Proof. intros H. unfold slice. apply is_bytes_firstn, is_bytes_skipn, H. Qed.

Lemma len_app {A : Type} (l1 l2 : list A) : len (l1 ++ l2) = len l1 + len l2.
Proof. unfold len. rewrite length_app. lia. Qed.

Lemma len_repeat {A : Type} (x : A) n : len (repeat x n) = Z.of_nat n.
Proof. unfold len. rewrite repeat_length. reflexivity. Qed.

Lemma len_nonneg {A : Type} (l : list A) : 0 <= len l.
Proof. unfold len. lia. Qed.

Lemma len_slice l a b : 0 <= a ->
  len (slice l a b) = Z.max 0 (Z.min (b - a) (len l - a)).
Proof.
  intros Ha. unfold slice, len. rewrite length_firstn, length_skipn. lia.
Qed.

Lemma packet_data_len file_data packet_num :
  0 <= packet_num -> len (packet_data file_data packet_num) = 16.
Proof.
  intros Hk. unfold packet_data, packet_size.
  set (s := slice file_data _ _).
  assert (Hs : len s <= 16).
  { subst s. rewrite len_slice by lia. lia. }
  destruct (len s <? 16) eqn:E.
  - rewrite len_app, len_repeat. pose proof (len_nonneg s). lia.
  - apply Z.ltb_ge in E. lia.
Qed.

Lemma packet_data_bytes file_data packet_num :
  is_bytes file_data = true -> is_bytes (packet_data file_data packet_num) = true.
Proof.
  intros H. unfold packet_data.
  set (s := slice file_data _ _).
  assert (Hs : is_bytes s = true) by (apply is_bytes_slice, H).
  destruct (len s <? packet_size); [|exact Hs].
  rewrite is_bytes_app, Hs. apply is_bytes_repeat. reflexivity.
Qed.

Lemma pack_H_ok v : 0 <= v <= 65535 -> pack_H v = Ret (le_bytes 2 v).
Proof.
  intros H. unfold pack_H, pack_field.
  replace ((0 <=? v) && (v <? 256 ^ Z.of_nat 2)) with true; [reflexivity|].
  symmetry. apply andb_true_iff. split; [apply Z.leb_le|apply Z.ltb_lt]; simpl; lia.
Qed.

Lemma pack_H_overflow v : ~ 0 <= v <= 65535 ->
  exists msg, pack_H v = Raise (struct_error msg).
Proof.
  intros H. unfold pack_H, pack_field.
  replace ((0 <=? v) && (v <? 256 ^ Z.of_nat 2)) with false; [eexists; reflexivity|].
  symmetry. apply andb_false_iff.
  destruct (Z.leb_spec 0 v); [right|left; reflexivity].
  apply Z.ltb_ge. simpl. lia.
Qed.

Lemma packet_content_ok file_data packet_num :
  is_bytes file_data = true -> 0 <= packet_num <= 65535 ->
  packet_content file_data packet_num = Ret (packet_record file_data packet_num).
Proof.
  intros Hd Hk. unfold packet_content, pack_HB, packet_record.
  rewrite (pack_H_ok _ Hk). cbn [result_bind].
  rewrite pack_B_byte.
  - cbn [result_bind]. rewrite <- app_assoc. reflexivity.
  - apply xor_bytes_byte; [lia|]. apply packet_data_bytes, Hd.
Qed.

Lemma packet_content_overflow file_data packet_num :
  ~ 0 <= packet_num <= 65535 ->
  exists msg, packet_content file_data packet_num = Raise (struct_error msg).
Proof.
  intros Hk. unfold packet_content, pack_HB.
  destruct (pack_H_overflow _ Hk) as [msg ->]. exists msg. reflexivity.
Qed.

Lemma le_bytes_2_bytes v : 0 <= v <= 65535 -> is_bytes (le_bytes 2 v) = true.
Proof.
  intros H. cbn [le_bytes is_bytes forallb].
  rewrite !(proj2 (is_byte_iff _)); [reflexivity| |].
  - pose proof (Z.mod_pos_bound (v / 256) 256). lia.
  - pose proof (Z.mod_pos_bound v 256). lia.
Qed.

Lemma packet_record_len file_data packet_num :
  0 <= packet_num -> len (packet_record file_data packet_num) = 19.
Proof.
  intros Hk. unfold packet_record. rewrite !len_app, packet_data_len by lia.
  reflexivity.
Qed.

Lemma packet_record_bytes file_data packet_num :
  is_bytes file_data = true -> 0 <= packet_num <= 65535 ->
  is_bytes (packet_record file_data packet_num) = true.
Proof.
  intros Hd Hk. unfold packet_record.
  rewrite !is_bytes_app, le_bytes_2_bytes, packet_data_bytes by assumption.
  cbn [is_bytes forallb andb].
  rewrite (proj2 (is_byte_iff _)); [reflexivity|].
  apply xor_bytes_byte; [lia|]. apply packet_data_bytes, Hd.
Qed.

Lemma range_max_retries : range max_retries = [0; 1; 2].
Proof. reflexivity. Qed.

Section PacketLoop.
Variable file_data : list Z.
Hypothesis file_bytes_ok : is_bytes file_data = true.

Let packet (k : Z) : list Z := request SEND_PACKET (packet_record file_data k).

Lemma packet_loop_cons (k : Z) more w :
  0 <= k <= 65535 ->
  packet_loop file_data (k :: more) w
  = match retry_loop k (packet_record file_data k) (range max_retries) w with
    | (Ret true, w') => packet_loop file_data more w'
    | (Ret false, w') =>
        ((print ("Failed to send packet " ++ format_d k ++ " after retries")%string ;;;
          send_command ABORT_UPDATE [] ;;; ret false) w')
    | (Raise e, w') => (Raise e, w')
    end.
Proof.
  intros Hk. cbn [packet_loop]. unfold bind at 1, lift at 1.
  rewrite (packet_content_ok _ _ file_bytes_ok Hk).
  unfold bind at 1.
  destruct (retry_loop k (packet_record file_data k) (range max_retries) w)
    as [[[|]|e] w']; reflexivity.
Qed.

Lemma packet_loop_acked k more i1 s1 i2 r s2 :
  0 <= k <= 65535 ->
  (exists lines, runs (retry_loop k (packet_record file_data k) (range max_retries))
                      i1 (Ret true) s1 lines) ->
  (exists lines, runs (packet_loop file_data more) i2 r s2 lines) ->
  exists lines,
    runs (packet_loop file_data (k :: more)) (i1 ++ i2) r (s1 ++ s2) lines.
Proof.
  intros Hk [l1 H1] [l2 H2]. exists (l1 ++ l2). intros rest txs c.
  rewrite packet_loop_cons by exact Hk.
  rewrite <- app_assoc, H1, H2, !app_assoc. reflexivity.
Qed.

Lemma packet_loop_failed k more i1 s1 :
  0 <= k <= 65535 ->
  (exists lines, runs (retry_loop k (packet_record file_data k) (range max_retries))
                      i1 (Ret false) s1 lines) ->
  exists lines,
    runs (packet_loop file_data (k :: more)) i1 (Ret false)
         (s1 ++ [request ABORT_UPDATE []]) lines.
Proof.
  intros Hk [l1 H1]. eexists. intros rest txs c.
  rewrite packet_loop_cons by exact Hk. rewrite H1.
  unfold bind at 1. rewrite print_eq.
  unfold bind at 1. rewrite send_command_ok by (reflexivity || (cbn; lia)).
  unfold ret. rewrite <- !app_assoc. reflexivity.
Qed.

Lemma packet_loop_overflow k more :
  ~ 0 <= k <= 65535 ->
  exists msg,
    runs (packet_loop file_data (k :: more)) [] (Raise (struct_error msg)) [] [].
Proof.
  intros Hk. destruct (packet_content_overflow file_data k Hk) as [msg E].
  exists msg. intros rest txs c. cbn [packet_loop].
  unfold bind at 1, lift at 1. rewrite E, !app_nil_r. reflexivity.
Qed.

Lemma packet_loop_nil : runs (packet_loop file_data []) [] (Ret true) [] [].
Proof. apply runs_ret. Qed.

Lemma packet_loop_app nums1 : forall nums2 w,
  packet_loop file_data (nums1 ++ nums2) w
  = match packet_loop file_data nums1 w with
    | (Ret true, w') => packet_loop file_data nums2 w'
    | other => other
    end.
Proof.
  induction nums1 as [|k nums1 IH]; intros nums2 w; [reflexivity|].
  cbn [app packet_loop]. unfold bind, lift.
  destruct (packet_content file_data k) as [content|e]; [|reflexivity].
  destruct (retry_loop k content (range max_retries) w) as [[[|]|e] w2];
    cbn [negb].
  - apply IH.
  - destruct (print _ w2) as [[u|e] w3]; [|reflexivity].
    destruct (send_command ABORT_UPDATE [] w3) as [[b|e] w4]; reflexivity.
  - reflexivity.
Qed.

Lemma packet_loop_runs_app nums1 nums2 i1 s1 i2 r s2 :
  (exists lines, runs (packet_loop file_data nums1) i1 (Ret true) s1 lines) ->
  (exists lines, runs (packet_loop file_data nums2) i2 r s2 lines) ->
  exists lines,
    runs (packet_loop file_data (nums1 ++ nums2)) (i1 ++ i2) r (s1 ++ s2) lines.
Proof.
  intros [l1 H1] [l2 H2]. exists (l1 ++ l2). intros rest txs c.
  rewrite packet_loop_app, <- app_assoc, H1, H2, !app_assoc. reflexivity.
Qed.

(** Every packet acknowledged at the first attempt. *)
Lemma packet_loop_all_acked nums :
  Forall (fun k => 0 <= k <= 65535) nums ->
  exists lines,
    runs (packet_loop file_data nums)
         (flat_map (fun _ => reply ACK []) nums) (Ret true)
         (map packet nums) lines.
Proof.
  induction 1 as [|k nums Hk _ IH].
  - exists []. apply packet_loop_nil.
  - cbn [flat_map map].
    change (packet k :: map packet nums) with ([packet k] ++ map packet nums).
    apply packet_loop_acked; [exact Hk| |exact IH].
    rewrite range_max_retries. apply retry_loop_ack.
    + rewrite packet_record_len by lia. lia.
    + apply packet_record_bytes; assumption.
Qed.
End PacketLoop.

Lemma exchange_eq {A : Type} (m : M A) i r s i' s' :
  exchange m i r s -> i = i' -> s = s' -> exchange m i' r s'.
Proof. intros H <- <-. exact H. Qed.

Lemma get_version_info_runs data :
  len data = 16 ->
  exchange get_version_info (reply VERSION_INFO data)
           (Ret (Some (version_info_of data))) [request GET_VERSION []].
Proof.
  intros Hn. eexists. intros rest txs c. unfold get_version_info.
  unfold bind at 1. rewrite send_command_ok by (reflexivity || (cbn; lia)).
  cbn [negb]. unfold bind at 1. rewrite read_response_reply.
  cbv beta iota zeta.
  cbn [Response_.equals Response_.eqb Response_.value Z.eqb Pos.eqb negb orb].
  rewrite Hn. cbn [Z.eqb Pos.eqb negb].
  unfold version_info_of.
  destruct (unpack_IIII data) as [[[a b] c0] d].
  unfold ret. rewrite <- !app_assoc. reflexivity.
Qed.

Lemma le_bytes_bytes size : forall v, is_bytes (le_bytes size v) = true.
Proof.
  induction size as [|size IH]; intros v; [reflexivity|].
  cbn [le_bytes is_bytes forallb]. rewrite (proj2 (is_byte_iff _)).
  - apply IH.
  - pose proof (Z.mod_pos_bound v 256). lia.
Qed.

Lemma len_le_bytes size : forall v, len (le_bytes size v) = Z.of_nat size.
Proof.
  unfold len. induction size as [|size IH]; intros v; [reflexivity|].
  cbn [le_bytes List.length]. specialize (IH (v / 256)). lia.
Qed.

Lemma pack_I_ok v : u32 v -> pack_I v = Ret (le_bytes 4 v).
Proof.
  unfold u32. intros H. unfold pack_I, pack_field.
  replace ((0 <=? v) && (v <? 256 ^ Z.of_nat 4)) with true; [reflexivity|].
  symmetry. apply andb_true_iff. split; [apply Z.leb_le|apply Z.ltb_lt]; simpl; lia.
Qed.

Lemma pack_III_ok a b c :
  u32 a -> u32 b -> u32 c -> pack_III a b c = Ret (init_data a b c).
Proof.
  intros Ha Hb Hc. unfold pack_III.
  rewrite (pack_I_ok a Ha), (pack_I_ok b Hb), (pack_I_ok c Hc). reflexivity.
Qed.

Lemma init_data_len a b c : len (init_data a b c) = 12.
Proof. unfold init_data. rewrite !len_app, !len_le_bytes. reflexivity. Qed.

Lemma init_data_bytes a b c : is_bytes (init_data a b c) = true.
Proof. unfold init_data. rewrite !is_bytes_app, !le_bytes_bytes. reflexivity. Qed.

Lemma target_address_cases vi :
  target_address vi = version_1_address \/ target_address vi = version_2_address.
Proof.
  unfold target_address.
  destruct (current_version vi =? 0); [left; reflexivity|].
  destruct (current_address vi =? version_1_address); [right|left]; reflexivity.
Qed.

Lemma target_address_u32 vi : u32 (target_address vi).
Proof.
  unfold u32.
  destruct (target_address_cases vi) as [-> | ->];
    unfold version_1_address, version_2_address; lia.
Qed.

Lemma ready_loop_ready attempt attempts :
  exchange (ready_loop (attempt :: attempts)) (reply READY []) (Ret true) [].
Proof.
  eexists. intros rest txs c. cbn [ready_loop].
  unfold bind at 1. rewrite read_response_reply. cbv beta iota zeta.
  cbn [Response_.equals Response_.eqb Response_.value Z.eqb Pos.eqb].
  unfold bind at 1. rewrite print_eq. unfold ret.
  rewrite <- !app_assoc, app_nil_r. reflexivity.
Qed.


Lemma finish_update_response r :
  exchange finish_update (reply r [])
           (Ret (Response_.eqb r ACK)) [request FINISH_UPDATE []].
Proof.
  destruct (Response_.eqb r ACK) eqn:E; eexists; intros rest txs c;
    unfold finish_update;
    (unfold bind at 1; rewrite send_command_ok by (reflexivity || (cbn; lia)));
    cbn [negb]; unfold bind at 1; rewrite read_response_reply;
    cbv beta iota zeta; cbn [Response_.equals]; rewrite E; cbn [negb];
    unfold bind at 1; rewrite print_eq; unfold ret;
    rewrite <- !app_assoc; cbn [app]; reflexivity.
Qed.

Section TransferFile.
Variables (new_version target : Z) (file_data : list Z).
Hypothesis version_u32 : u32 new_version.
Hypothesis target_u32 : u32 target.
Hypothesis size_u32 : u32 (len file_data).

Let init : list Z :=
  request INIT_UPDATE (init_data new_version target (len file_data)).

Lemma transfer_file_start :
  exists c', forall rest txs c,
    transfer_file new_version target file_data (mkWorld true rest txs [] c)
    = (ready <- ready_loop (range max_retries) ;;
       if negb ready then ret false
       else
         print ("Sending " ++ format_d (total_packets (len file_data))
                  ++ " packets...")%string ;;;
         done <- packet_loop file_data
                   (range (total_packets (len file_data))) ;;
         if negb done then ret false
         else
           print "Data transfer complete. Finalizing update..." ;;;
           finish_update)
        (mkWorld true rest (txs ++ [init]) [] (c ++ c')).
Proof.
  eexists. intros rest txs c. unfold transfer_file.
  unfold bind at 1. rewrite print_eq.
  unfold bind at 1, lift at 1.
  rewrite (pack_III_ok _ _ _ version_u32 target_u32 size_u32).
  unfold bind at 1. rewrite send_command_ok;
    [|rewrite init_data_len; lia|apply init_data_bytes].
  cbn [negb]. unfold bind at 1. rewrite print_eq.
  rewrite <- !app_assoc. cbn [app]. reflexivity.
Qed.

Lemma transfer_file_not_ready i1 s1 :
  exchange (ready_loop (range max_retries)) i1 (Ret false) s1 ->
  exchange (transfer_file new_version target file_data) i1 (Ret false)
           (init :: s1).
Proof.
  intros [l1 H1]. destruct transfer_file_start as [c' Hs].
  eexists. intros rest txs c. rewrite Hs.
  unfold bind at 1. rewrite H1. cbn [negb]. unfold ret.
  rewrite <- !app_assoc. cbn [app]. reflexivity.
Qed.

Lemma transfer_file_stops i1 s1 i2 r2 s2 :
  exchange (ready_loop (range max_retries)) i1 (Ret true) s1 ->
  exchange (packet_loop file_data (range (total_packets (len file_data))))
           i2 r2 s2 ->
  r2 <> Ret true ->
  exchange (transfer_file new_version target file_data) (i1 ++ i2) r2
           (init :: s1 ++ s2).
Proof.
  intros [l1 H1] [l2 H2] Hr. destruct transfer_file_start as [c' Hs].
  destruct r2 as [[|]|e]; [congruence| |];
    eexists; intros rest txs c; rewrite Hs;
    (unfold bind at 1; rewrite <- app_assoc, H1); cbn [negb];
    (unfold bind at 1; rewrite print_eq);
    (unfold bind at 1; rewrite H2); cbn [negb]; unfold ret;
    rewrite <- !app_assoc; cbn [app]; reflexivity.
Qed.

Lemma transfer_file_finishes i1 s1 i2 s2 i3 r s3 :
  exchange (ready_loop (range max_retries)) i1 (Ret true) s1 ->
  exchange (packet_loop file_data (range (total_packets (len file_data))))
           i2 (Ret true) s2 ->
  exchange finish_update i3 r s3 ->
  exchange (transfer_file new_version target file_data) (i1 ++ i2 ++ i3) r
           (init :: s1 ++ s2 ++ s3).
Proof.
  intros [l1 H1] [l2 H2] [l3 H3]. destruct transfer_file_start as [c' Hs].
  eexists. intros rest txs c. rewrite Hs.
  unfold bind at 1. rewrite <- !app_assoc, H1. cbn [negb].
  unfold bind at 1. rewrite print_eq.
  unfold bind at 1. rewrite H2. cbn [negb].
  unfold bind at 1. rewrite print_eq.
  rewrite H3. rewrite <- !app_assoc. cbn [app]. reflexivity.
Qed.
End TransferFile.

Lemma send_update_file_runs filepath file_data new_version vi i0 s0 i r s :
  exchange get_version_info i0 (Ret (Some vi)) s0 ->
  exchange (transfer_file new_version (target_address vi) file_data) i r s ->
  exchange (send_update_file filepath (file_bytes file_data) new_version)
           (i0 ++ i) r (s0 ++ s).
Proof.
  intros [l0 H0] [l1 H1]. eexists. intros rest txs c.
  unfold send_update_file.
  unfold bind at 1. rewrite <- app_assoc, H0.
  unfold bind at 1. rewrite print_eq.
  unfold bind at 1. rewrite print_eq.
  unfold bind at 1. rewrite print_eq.
  rewrite H1. rewrite <- !app_assoc. cbn [app]. reflexivity.
Qed.

(** ** Facts on [range] *)

Lemma seq_offset n m : forall s,
  seq (n + s) m = map (fun i => (n + i)%nat) (seq s m).
Proof.
  induction m as [|m IH]; intros s; [reflexivity|].
  cbn [seq map]. f_equal. rewrite <- IH. f_equal. lia.
Qed.

Lemma range_app a b : 0 <= a -> 0 <= b ->
  range (a + b) = range a ++ map (fun j => a + j) (range b).
Proof.
  intros Ha Hb. unfold range.
  rewrite Z2Nat.inj_add, seq_app, map_app by assumption.
  f_equal. cbn [Nat.add].
  rewrite <- (Nat.add_0_r (Z.to_nat a)) at 1.
  rewrite seq_offset, !map_map. apply map_ext. intros i. lia.
Qed.

Lemma range_In n k : In k (range n) <-> 0 <= k < n.
Proof.
  unfold range. rewrite in_map_iff. split.
  - intros [i [<- Hi]]. apply in_seq in Hi. lia.
  - intros H. exists (Z.to_nat k). split; [lia|]. apply in_seq. lia.
Qed.

Lemma range_bounds n : n <= 65536 -> Forall (fun k => 0 <= k <= 65535) (range n).
Proof.
  intros Hn. apply Forall_forall. intros k Hk. apply range_In in Hk. lia.
Qed.

Lemma range_succ n : 0 <= n -> range (n + 1) = range n ++ [n].
Proof.
  intros Hn. rewrite range_app by lia.
  change (range 1) with [0]. cbn [map]. rewrite Z.add_0_r. reflexivity.
Qed.

Lemma range_split n k : 0 <= k < n ->
  range n = range k ++ k :: map (fun j => k + 1 + j) (range (n - k - 1)).
Proof.
  intros H. replace n with ((k + 1) + (n - k - 1)) at 1 by lia.
  rewrite range_app, range_succ, <- app_assoc by lia. reflexivity.
Qed.



Lemma total_packets_ceil n : 0 <= n ->
  16 * (total_packets n - 1) < n <= 16 * total_packets n.
Proof.
  intros Hn. unfold total_packets, packet_size.
  pose proof (Z.div_mod (n + 16 - 1) 16 ltac:(lia)).
  pose proof (Z.mod_pos_bound (n + 16 - 1) 16 ltac:(lia)). lia.
Qed.

(** * The claims *)

(** C1 -- Frame round trip.  For every response code of the protocol and
    every payload of at most 255 bytes, the frame that the encoder of
    [send_command] builds for them (code byte, length byte, payload, XOR of
    all the bytes before) is read back by [read_response] as exactly that
    code and that payload, and nothing beyond the frame is consumed. *)
Theorem frame_round_trip (r : Response) (payload : list Z) :
  len payload <= 255 -> is_bytes payload = true ->
  exists frame,
    build_frame (Response_.value r) payload = Ret frame /\
    frame = Response_.value r :: len payload :: payload
              ++ [xor_bytes 0 (Response_.value r :: len payload :: payload)] /\
    forall rest txs wf c,
    exists c',
      read_response (mkWorld true (map RxByte frame ++ rest) txs wf c)
      = (Ret (Some r, payload), mkWorld true rest txs wf c').
Proof.
  intros Hn Hb. exists (wire (Response_.value r) payload).
  split; [|split].
  - apply build_frame_wire; [destruct r; simpl; lia|assumption|assumption].
  - reflexivity.
  - intros rest txs wf c. eexists. unfold wire.
    rewrite read_response_frame. cbv zeta.
    rewrite xor_bytes_header, Z.eqb_refl, of_value_value. reflexivity.
Qed.

Lemma frame_round_trip_witness :
  len [1; 2; 3] <= 255 /\ is_bytes [1; 2; 3] = true /\
  exists frame,
    build_frame (Response_.value ERROR) [1; 2; 3] = Ret frame /\
    frame = Response_.value ERROR :: len [1; 2; 3] :: [1; 2; 3]
              ++ [xor_bytes 0 (Response_.value ERROR :: len [1; 2; 3] :: [1; 2; 3])] /\
    forall rest txs wf c,
    exists c',
      read_response (mkWorld true (map RxByte frame ++ rest) txs wf c)
      = (Ret (Some ERROR, [1; 2; 3]), mkWorld true rest txs wf c').
Proof.
  split; [vm_compute; discriminate|].
  split; [reflexivity|].
  apply (frame_round_trip ERROR [1; 2; 3]); [vm_compute; discriminate|reflexivity].
Defined.

(** C2 -- Target-bank selection.  With no firmware installed
    ([current_version = 0]) the target is bank A ([0x200000]); otherwise it
    is bank B ([0x300000]) when [current_address] is bank A and bank A in
    every other case, so that with firmware installed the target never is
    the bank that [current_address] names. *)
Theorem target_bank_selection (version_info : VersionInfo) :
  version_1_address = 0x200000 /\ version_2_address = 0x300000 /\
  (current_version version_info = 0 ->
   target_address version_info = version_1_address) /\
  (current_version version_info <> 0 ->
   current_address version_info = version_1_address ->
   target_address version_info = version_2_address) /\
  (current_version version_info <> 0 ->
   current_address version_info <> version_1_address ->
   target_address version_info = version_1_address) /\
  (current_version version_info <> 0 ->
   target_address version_info <> current_address version_info).
Proof.
  unfold target_address.
  repeat split; intros.
  - rewrite (proj2 (Z.eqb_eq _ _)) by assumption. reflexivity.
  - rewrite (proj2 (Z.eqb_neq _ _)), (proj2 (Z.eqb_eq _ _)) by assumption.
    reflexivity.
  - rewrite !(proj2 (Z.eqb_neq _ _)) by assumption. reflexivity.
  - rewrite (proj2 (Z.eqb_neq _ _)) by assumption.
    destruct (Z.eqb_spec (current_address version_info) version_1_address) as [E|E].
    + rewrite E. discriminate.
    + congruence.
Qed.

Lemma target_bank_selection_witness :
  target_address (mkVersionInfo 3 2 0x200000 0x300000) = version_2_address /\
  target_address (mkVersionInfo 3 2 0x200000 0x300000) <> 0x200000.
Proof.
  pose proof (target_bank_selection (mkVersionInfo 3 2 0x200000 0x300000))
    as (_ & _ & _ & HB & _ & Hne).
  split.
  - apply HB; [discriminate|reflexivity].
  - apply Hne. discriminate.
Defined.




(** C9 -- Zero-length firmware.  For an empty image the packet count is 0,
    the packet loop has nothing to iterate over, and once the device has
    answered the version query and [READY], the packet written after
    [INIT_UPDATE] is [FINISH_UPDATE]: no [SEND_PACKET] is sent, and the
    answer to [FINISH_UPDATE] decides the result. *)
Theorem zero_length_firmware filepath new_version vdata (r : Response) :
  len vdata = 16 -> 0 <= new_version < 2 ^ 32 ->
  total_packets (len (@nil Z)) = 0 /\
  range (total_packets (len (@nil Z))) = [] /\
  exchange (send_update_file filepath (file_bytes []) new_version)
    (reply VERSION_INFO vdata ++ reply READY [] ++ reply r [])
    (Ret (Response_.eqb r ACK))
    [request GET_VERSION [];
     request INIT_UPDATE
       (init_data new_version (target_address (version_info_of vdata)) 0);
     request FINISH_UPDATE []].
Proof.
  intros Hv Hn. split; [reflexivity|]. split; [reflexivity|].
  change [request GET_VERSION [];
          request INIT_UPDATE
            (init_data new_version (target_address (version_info_of vdata)) 0);
          request FINISH_UPDATE []]
    with ([request GET_VERSION []]
            ++ request INIT_UPDATE
                 (init_data new_version (target_address (version_info_of vdata))
                            (len (@nil Z)))
            :: [] ++ [] ++ [request FINISH_UPDATE []]).
  apply send_update_file_runs with (vi := version_info_of vdata).
  - apply get_version_info_runs, Hv.
  - replace (reply READY [] ++ reply r [])
      with (reply READY [] ++ [] ++ reply r []) by reflexivity.
    apply transfer_file_finishes.
    + exact Hn.
    + apply target_address_u32.
    + unfold u32, len. cbn [List.length Z.of_nat]. lia.
    + rewrite range_max_retries. apply ready_loop_ready.
    + exists []. apply packet_loop_nil.
    + apply finish_update_response.
Qed.

Lemma zero_length_firmware_witness :
  exchange (send_update_file "empty.bin" (file_bytes []) 7)
    (reply VERSION_INFO sample_version_data ++ reply READY [] ++ reply ACK [])
    (Ret (Response_.eqb ACK ACK))
    [request GET_VERSION [];
     request INIT_UPDATE
       (init_data 7 (target_address (version_info_of sample_version_data)) 0);
     request FINISH_UPDATE []].
Proof.
  refine (proj2 (proj2 (zero_length_firmware "empty.bin" 7 sample_version_data
                          ACK _ _))).
  - reflexivity.
  - lia.
Defined.

(** ** Chunking *)

Lemma chunk_nat file_data j :
  chunk file_data (Z.of_nat j) = firstn 16 (skipn (16 * j) file_data).
Proof.
  unfold chunk, slice, packet_size. f_equal; [|f_equal]; lia.
Qed.

Lemma len_chunk file_data k : 0 <= k ->
  len (chunk file_data k) = Z.max 0 (Z.min 16 (len file_data - 16 * k)).
Proof.
  intros Hk. unfold chunk, packet_size. rewrite len_slice by lia. lia.
Qed.

Lemma slice_clip l a b : 0 <= a ->
  slice l a (Z.min b (len l)) = slice l a b.
Proof.
  intros Ha. unfold slice.
  destruct (Z.le_ge_cases b (len l)) as [H|H].
  - rewrite Z.min_l by exact H. reflexivity.
  - rewrite Z.min_r by lia.
    rewrite !firstn_all2; [reflexivity| |]; rewrite length_skipn; unfold len in *; lia.
Qed.

Lemma packet_data_chunk file_data k : 0 <= k ->
  packet_data file_data k
  = chunk file_data k
      ++ repeat 0xFF (Z.to_nat (16 - len (chunk file_data k))).
Proof.
  intros Hk. unfold packet_data.
  rewrite slice_clip by (unfold packet_size; lia).
  fold (chunk file_data k). unfold packet_size.
  destruct (len (chunk file_data k) <? 16) eqn:E; [reflexivity|].
  apply Z.ltb_ge in E.
  replace (Z.to_nat (16 - len (chunk file_data k))) with 0%nat by lia.
  cbn [repeat]. rewrite app_nil_r. reflexivity.
Qed.

Lemma chunks_concat_nat m : forall l : list Z,
  (List.length l <= 16 * m)%nat ->
  List.concat (map (fun j => firstn 16 (skipn (16 * j) l)) (seq 0 m)) = l.
Proof.
  induction m as [|m IH]; intros l Hl.
  - destruct l; [reflexivity|simpl in Hl; lia].
  - cbn [seq map List.concat]. rewrite <- seq_shift, map_map.
    rewrite (map_ext _ (fun j => firstn 16 (skipn (16 * j) (skipn 16 l)))).
    + rewrite IH by (rewrite length_skipn; lia).
      change (skipn (16 * 0) l) with l. apply firstn_skipn.
    + intros j. rewrite skipn_skipn. do 2 f_equal. lia.
Qed.

Lemma chunks_concat file_data :
  List.concat (map (chunk file_data) (range (total_packets (len file_data))))
  = file_data.
Proof.
  unfold range. rewrite map_map.
  rewrite (map_ext _ (fun j => firstn 16 (skipn (16 * j) file_data)))
    by (intros j; apply chunk_nat).
  apply chunks_concat_nat.
  pose proof (total_packets_ceil (len file_data) (len_nonneg _)).
  unfold len in *. lia.
Qed.

(** ** Sessions that pass the handshake *)

Section Session.
Variables (filepath : string) (file_data : list Z) (new_version : Z)
          (vdata : list Z).
Hypothesis vdata_len : len vdata = 16.
Hypothesis version_u32 : 0 <= new_version < 2 ^ 32.
Hypothesis size_u32 : len file_data < 2 ^ 32.

Let packets : list Z := range (total_packets (len file_data)).

Lemma size_is_u32 : u32 (len file_data).
Proof. pose proof (len_nonneg file_data). split; lia. Qed.

Lemma session_stops i2 r2 s2 :
  exchange (packet_loop file_data packets) i2 r2 s2 ->
  r2 <> Ret true ->
  exchange (send_update_file filepath (file_bytes file_data) new_version)
           (handshake vdata ++ i2) r2
           (opening new_version vdata (len file_data) ++ s2).
Proof.
  intros H2 Hr. unfold handshake, opening. rewrite <- app_assoc.
  change ([request GET_VERSION []; ?x] ++ s2)
    with ([request GET_VERSION []] ++ x :: [] ++ s2).
  apply send_update_file_runs with (vi := version_info_of vdata).
  - apply get_version_info_runs, vdata_len.
  - apply transfer_file_stops;
      [exact version_u32|apply target_address_u32|apply size_is_u32| | |].
    + rewrite range_max_retries. apply ready_loop_ready.
    + exact H2.
    + exact Hr.
Qed.

Lemma session_finishes i2 s2 i3 r s3 :
  exchange (packet_loop file_data packets) i2 (Ret true) s2 ->
  exchange finish_update i3 r s3 ->
  exchange (send_update_file filepath (file_bytes file_data) new_version)
           (handshake vdata ++ i2 ++ i3) r
           (opening new_version vdata (len file_data) ++ s2 ++ s3).
Proof.
  intros H2 H3. unfold handshake, opening. rewrite <- app_assoc.
  change ([request GET_VERSION []; ?x] ++ s2 ++ s3)
    with ([request GET_VERSION []] ++ x :: [] ++ s2 ++ s3).
  apply send_update_file_runs with (vi := version_info_of vdata).
  - apply get_version_info_runs, vdata_len.
  - apply transfer_file_finishes;
      [exact version_u32|apply target_address_u32|apply size_is_u32| | |].
    + rewrite range_max_retries. apply ready_loop_ready.
    + exact H2.
    + exact H3.
Qed.
End Session.

Lemma session_all_acked filepath file_data new_version vdata :
  is_bytes file_data = true -> len file_data <= 16 * 65536 ->
  len vdata = 16 -> 0 <= new_version < 2 ^ 32 ->
  exchange (send_update_file filepath (file_bytes file_data) new_version)
    (handshake vdata
       ++ flat_map (fun _ => reply ACK [])
            (range (total_packets (len file_data)))
       ++ reply ACK [])
    (Ret true)
    (opening new_version vdata (len file_data)
       ++ map (packet_frame file_data) (range (total_packets (len file_data)))
       ++ [request FINISH_UPDATE []]).
Proof.
  intros Hb Hn Hv Hnv.
  apply session_finishes; [exact Hv|exact Hnv|lia| |].
  - apply packet_loop_all_acked; [exact Hb|].
    apply range_bounds.
    pose proof (total_packets_ceil (len file_data) (len_nonneg _)). lia.
  - apply (finish_update_response ACK).
Qed.

Lemma count_command_app cmd s1 s2 :
  count_command cmd (s1 ++ s2) = (count_command cmd s1 + count_command cmd s2)%nat.
Proof. unfold count_command. rewrite filter_app, length_app. reflexivity. Qed.

Lemma count_command_packets cmd file_data nums :
  cmd <> SEND_PACKET ->
  count_command cmd (map (packet_frame file_data) nums) = 0%nat.
Proof.
  intros Hc. induction nums as [|k nums IH]; [reflexivity|].
  change (map (packet_frame file_data) (k :: nums))
    with ([packet_frame file_data k] ++ map (packet_frame file_data) nums).
  rewrite count_command_app, IH.
  destruct cmd; try reflexivity. congruence.
Qed.

Lemma count_send_packets file_data nums :
  count_command SEND_PACKET (map (packet_frame file_data) nums) = List.length nums.
Proof.
  induction nums as [|k nums IH]; [reflexivity|].
  change (map (packet_frame file_data) (k :: nums))
    with ([packet_frame file_data k] ++ map (packet_frame file_data) nums).
  rewrite count_command_app, IH. reflexivity.
Qed.

Lemma session_overflow filepath file_data new_version vdata :
  is_bytes file_data = true ->
  16 * 65536 < len file_data < 2 ^ 32 ->
  len vdata = 16 -> 0 <= new_version < 2 ^ 32 ->
  exists msg,
    exchange (send_update_file filepath (file_bytes file_data) new_version)
      (handshake vdata ++ flat_map (fun _ : Z => reply ACK []) (range 65536))
      (Raise (struct_error msg))
      (opening new_version vdata (len file_data)
         ++ map (packet_frame file_data) (range 65536)).
Proof.
  intros Hb Hn Hv Hnv.
  pose proof (total_packets_ceil (len file_data) (len_nonneg _)) as Hceil.
  destruct (packet_loop_overflow file_data 65536
              (map (fun j => 65536 + 1 + j)
                   (range (total_packets (len file_data) - 65536 - 1)))
              ltac:(lia)) as [msg Hraise].
  exists msg.
  apply session_stops; [exact Hv|exact Hnv|lia| |discriminate].
  rewrite (range_split (total_packets (len file_data)) 65536) by lia.
  rewrite <- (app_nil_r (flat_map _ (range 65536))).
  rewrite <- (app_nil_r (map _ (range 65536))).
  apply packet_loop_runs_app.
  - apply packet_loop_all_acked; [exact Hb|]. apply range_bounds. lia.
  - eexists. exact Hraise.
Qed.

Lemma len_range n : 0 <= n -> len (range n) = n.
Proof.
  intros Hn. unfold len, range. rewrite length_map, length_seq. lia.
Qed.

(** C3, as stated, does not hold for every image.  The image of
    [16 * 65536 + 1] bytes is cut into 65537 packets.  With every packet
    acknowledged the host writes the packets 0 to 65535, which are 65536,
    and then ends with the exception that [struct.pack] raises for the
    sequence number 65536: the last packet is never sent, and neither is
    [FINISH_UPDATE]. *)
Lemma large_image_is_not_sent_whole :
  total_packets (len large_image) = 65537 /\
  exists msg,
    let sent :=
      opening 1 sample_version_data (len large_image)
        ++ map (packet_frame large_image) (range 65536) in
    exchange (send_update_file "big.bin" (file_bytes large_image) 1)
      (handshake sample_version_data
         ++ flat_map (fun _ : Z => reply ACK []) (range 65536))
      (Raise (struct_error msg)) sent /\
    Z.of_nat (count_command SEND_PACKET sent) = 65536 /\
    count_command FINISH_UPDATE sent = 0%nat.
Proof.
  assert (Hlen : len large_image = 16 * 65536 + 1)
    by (unfold large_image; rewrite len_repeat; lia).
  split; [rewrite Hlen; reflexivity|].
  destruct (session_overflow "big.bin"%string large_image 1 sample_version_data)
    as [msg Hrun].
  - apply is_bytes_repeat. reflexivity.
  - rewrite Hlen. lia.
  - reflexivity.
  - lia.
  - exists msg. cbv zeta. split; [exact Hrun|]. split.
    + rewrite count_command_app, count_send_packets.
      fold (len (range 65536)). rewrite Nat2Z.inj_add.
      fold (len (range 65536)). rewrite len_range by lia. reflexivity.
    + rewrite count_command_app.
      rewrite count_command_packets by discriminate. reflexivity.
Qed.

(** C3, amended -- Chunking.  The image is cut into [ceil(file_size / 16)]
    packets; the data of packet [k] is the slice
    [file_data[16k : 16k + 16]], the slices in the order of the packets make
    up the image, every slice but the last has 16 bytes, and a shorter last
    slice is filled up to 16 bytes with [0xFF] on the right.  An image of 16
    bytes gives one packet without padding, an image of 17 bytes two
    packets, the second with 15 bytes of padding.  For an image of at most
    65536 packets ([file_size <= 16 * 65536], the range of the sequence
    number), in a session in which the device acknowledges every packet,
    the host writes exactly these packets, numbered in this order, between
    [INIT_UPDATE] and [FINISH_UPDATE]. *)
Theorem chunking (file_data : list Z) :
  let file_size := len file_data in
  let total := total_packets file_size in
  16 * (total - 1) < file_size <= 16 * total /\
  List.concat (map (chunk file_data) (range total)) = file_data /\
  (forall k, 0 <= k < total ->
     packet_data file_data k
     = chunk file_data k
         ++ repeat 0xFF (Z.to_nat (16 - len (chunk file_data k))) /\
     len (packet_data file_data k) = 16 /\
     1 <= len (chunk file_data k) <= 16 /\
     (k < total - 1 ->
      len (chunk file_data k) = 16 /\
      packet_data file_data k = chunk file_data k)) /\
  (file_size = 16 ->
   map (packet_data file_data) (range total) = [file_data]) /\
  (file_size = 17 ->
   map (packet_data file_data) (range total)
   = [firstn 16 file_data; skipn 16 file_data ++ repeat 0xFF 15]) /\
  (forall filepath new_version vdata,
     is_bytes file_data = true -> file_size <= 16 * 65536 ->
     len vdata = 16 -> 0 <= new_version < 2 ^ 32 ->
     exchange (send_update_file filepath (file_bytes file_data) new_version)
       (handshake vdata
          ++ flat_map (fun _ => reply ACK []) (range total)
          ++ reply ACK [])
       (Ret true)
       (opening new_version vdata file_size
          ++ map (packet_frame file_data) (range total)
          ++ [request FINISH_UPDATE []])).
Proof.
  intros file_size total.
  pose proof (total_packets_ceil file_size (len_nonneg _)) as Hceil.
  fold total in Hceil.
  split; [exact Hceil|]. split; [apply chunks_concat|].
  split; [|split; [|split]].
  - intros k Hk.
    pose proof (len_chunk file_data k ltac:(lia)) as Hc. fold file_size in Hc.
    split; [apply packet_data_chunk; lia|].
    split; [apply packet_data_len; lia|].
    split; [lia|].
    intros Hlast. split; [lia|].
    rewrite packet_data_chunk by lia.
    replace (Z.to_nat (16 - len (chunk file_data k))) with 0%nat by lia.
    apply app_nil_r.
  - intros E. subst total. rewrite E. change (range (total_packets 16)) with [0].
    cbn [map]. rewrite packet_data_chunk by lia.
    pose proof (len_chunk file_data 0 ltac:(lia)) as Hc. fold file_size in Hc.
    replace (Z.to_nat (16 - len (chunk file_data 0))) with 0%nat by lia.
    rewrite app_nil_r.
    change (chunk file_data 0) with (chunk file_data (Z.of_nat 0)).
    rewrite (chunk_nat file_data 0).
    change (skipn (16 * 0) file_data) with file_data.
    rewrite firstn_all2 by (unfold file_size, len in E; lia). reflexivity.
  - intros E. subst total. rewrite E. change (range (total_packets 17)) with [0; 1].
    cbn [map]. rewrite !packet_data_chunk by lia.
    pose proof (len_chunk file_data 0 ltac:(lia)) as Hc0.
    pose proof (len_chunk file_data 1 ltac:(lia)) as Hc1.
    fold file_size in Hc0, Hc1.
    replace (Z.to_nat (16 - len (chunk file_data 0))) with 0%nat by lia.
    replace (Z.to_nat (16 - len (chunk file_data 1))) with 15%nat by lia.
    rewrite app_nil_r.
    change (chunk file_data 0) with (chunk file_data (Z.of_nat 0)).
    change (chunk file_data 1) with (chunk file_data (Z.of_nat 1)).
    rewrite (chunk_nat file_data 0), (chunk_nat file_data 1).
    change (skipn (16 * 0) file_data) with file_data.
    change (16 * 1)%nat with 16%nat.
    rewrite (firstn_all2 (n := 16) (skipn 16 file_data))
      by (rewrite length_skipn; unfold file_size, len in E; lia).
    reflexivity.
  - intros filepath new_version vdata. apply session_all_acked.
Qed.

Lemma chunking_witness :
  exchange (send_update_file "fw.bin" (file_bytes sample_image) 1)
    (handshake sample_version_data
       ++ flat_map (fun _ => reply ACK [])
            (range (total_packets (len sample_image)))
       ++ reply ACK [])
    (Ret true)
    (opening 1 sample_version_data (len sample_image)
       ++ map (packet_frame sample_image)
            (range (total_packets (len sample_image)))
       ++ [request FINISH_UPDATE []]).
Proof.
  refine (proj2 (proj2 (proj2 (proj2 (proj2 (chunking sample_image)))))
            "fw.bin"%string 1 sample_version_data _ _ _ _).
  - reflexivity.
  - vm_compute. discriminate.
  - reflexivity.
  - lia.
Defined.

(** ** Retries of one packet *)

Section PacketRetries.
Variables (file_data : list Z) (k : Z).
Hypothesis file_bytes_ok : is_bytes file_data = true.
Hypothesis k_range : 0 <= k <= 65535.

Let content := packet_record file_data k.
Let frame := packet_frame file_data k.
Let checksum_error := reply CHECKSUM_ERROR [].

Lemma content_len : len content <= 255.
Proof. subst content. rewrite packet_record_len by lia. lia. Qed.

Lemma content_bytes : is_bytes content = true.
Proof. apply packet_record_bytes; assumption. Qed.

Lemma retried_twice_then_acked :
  exchange (retry_loop k content (range max_retries))
           (checksum_error ++ checksum_error ++ reply ACK [])
           (Ret true) [frame; frame; frame].
Proof.
  rewrite range_max_retries.
  apply retry_loop_checksum_error; [exact content_len|exact content_bytes|].
  apply retry_loop_checksum_error; [exact content_len|exact content_bytes|].
  apply retry_loop_ack; [exact content_len|exact content_bytes].
Qed.

Lemma retried_three_times :
  exchange (retry_loop k content (range max_retries))
           (checksum_error ++ checksum_error ++ checksum_error)
           (Ret false) [frame; frame; frame].
Proof.
  rewrite range_max_retries.
  apply retry_loop_checksum_error; [exact content_len|exact content_bytes|].
  apply retry_loop_checksum_error; [exact content_len|exact content_bytes|].
  rewrite <- (app_nil_r checksum_error).
  apply retry_loop_checksum_error; [exact content_len|exact content_bytes|].
  exists []. apply retry_loop_exhausted.
Qed.

End PacketRetries.

Section PacketAt.
Variables (file_data : list Z) (before after : list Z) (k : Z).
Hypothesis file_bytes_ok : is_bytes file_data = true.
Hypothesis before_range : Forall (fun j => 0 <= j <= 65535) before.
Hypothesis k_range : 0 <= k <= 65535.

Let acks (nums : list Z) := flat_map (fun _ : Z => reply ACK []) nums.
Let frames (nums : list Z) := map (packet_frame file_data) nums.

Lemma packet_loop_reaches i1 s1 i2 r s2 :
  exchange (retry_loop k (packet_record file_data k) (range max_retries))
           i1 (Ret true) s1 ->
  exchange (packet_loop file_data after) i2 r s2 ->
  exchange (packet_loop file_data (before ++ k :: after))
           (acks before ++ i1 ++ i2) r (frames before ++ s1 ++ s2).
Proof.
  intros H1 H2. apply packet_loop_runs_app.
  - apply packet_loop_all_acked; assumption.
  - apply packet_loop_acked; assumption.
Qed.

Lemma packet_loop_gives_up i1 s1 :
  exchange (retry_loop k (packet_record file_data k) (range max_retries))
           i1 (Ret false) s1 ->
  exchange (packet_loop file_data (before ++ k :: after))
           (acks before ++ i1) (Ret false)
           (frames before ++ s1 ++ [request ABORT_UPDATE []]).
Proof.
  intros H1. apply packet_loop_runs_app.
  - apply packet_loop_all_acked; assumption.
  - apply packet_loop_failed; assumption.
Qed.
End PacketAt.

(** C4 -- Retry budget of a packet.  [max_retries] is 3.  When the device
    answers [CHECKSUM_ERROR] twice and then [ACK] to packet [k], the packet
    has been written three times, each time the same bytes, and the loop goes
    on with the packets after it; a device that acknowledges those too makes
    the session return [True].  When it answers [CHECKSUM_ERROR] three times
    in a row, the packet has been written three times unchanged, then
    [ABORT_UPDATE] once, and the session returns [False] with nothing written
    after the abort. *)
Theorem retry_budget filepath file_data new_version vdata before k after :
  is_bytes file_data = true -> len file_data <= 16 * 65536 ->
  range (total_packets (len file_data)) = before ++ k :: after ->
  len vdata = 16 -> 0 <= new_version < 2 ^ 32 ->
  let frame := packet_frame file_data k in
  let frames := map (packet_frame file_data) in
  let acks := flat_map (fun _ : Z => reply ACK []) in
  let checksum_error := reply CHECKSUM_ERROR [] in
  let session :=
    send_update_file filepath (file_bytes file_data) new_version in
  max_retries = 3 /\
  (forall input r sent,
     exchange (packet_loop file_data after) input r sent ->
     exchange (packet_loop file_data (k :: after))
       ((checksum_error ++ checksum_error ++ reply ACK []) ++ input) r
       ([frame; frame; frame] ++ sent)) /\
  exchange session
    (handshake vdata ++ acks before
       ++ (checksum_error ++ checksum_error ++ reply ACK [])
       ++ acks after ++ reply ACK [])
    (Ret true)
    (opening new_version vdata (len file_data) ++ frames before
       ++ [frame; frame; frame] ++ frames after ++ [request FINISH_UPDATE []]) /\
  exchange session
    (handshake vdata ++ acks before
       ++ checksum_error ++ checksum_error ++ checksum_error)
    (Ret false)
    (opening new_version vdata (len file_data) ++ frames before
       ++ [frame; frame; frame] ++ [request ABORT_UPDATE []]) /\
  count_command ABORT_UPDATE
    (opening new_version vdata (len file_data) ++ frames before
       ++ [frame; frame; frame] ++ [request ABORT_UPDATE []]) = 1%nat.
Proof.
  intros Hb Hn Hsplit Hv Hnv frame frames acks checksum_error session.
  assert (Hall : Forall (fun j => 0 <= j <= 65535)
                        (range (total_packets (len file_data)))).
  { apply range_bounds.
    pose proof (total_packets_ceil (len file_data) (len_nonneg _)). lia. }
  rewrite Hsplit in Hall. apply Forall_app in Hall as [Hbefore Hrest].
  inversion Hrest as [|? ? Hk Hafter]; subst.
  split; [reflexivity|]. split; [|split; [|split]].
  - intros input r sent H. apply packet_loop_acked; [exact Hb|exact Hk| |exact H].
    apply retried_twice_then_acked; assumption.
  - subst session.
    eapply exchange_eq.
    + apply session_finishes with
        (i2 := acks before
                 ++ (checksum_error ++ checksum_error ++ reply ACK [])
                 ++ acks after)
        (s2 := frames before ++ [frame; frame; frame] ++ frames after);
        [exact Hv|exact Hnv|lia| |apply (finish_update_response ACK)].
      rewrite Hsplit.
      apply packet_loop_reaches; [exact Hb|exact Hbefore|exact Hk| |].
      * apply retried_twice_then_acked; assumption.
      * apply packet_loop_all_acked; assumption.
    + rewrite <- !app_assoc. reflexivity.
    + rewrite <- !app_assoc. reflexivity.
  - subst session.
    eapply exchange_eq.
    + apply session_stops with
        (i2 := acks before
                 ++ checksum_error ++ checksum_error ++ checksum_error)
        (s2 := frames before ++ [frame; frame; frame]
                 ++ [request ABORT_UPDATE []]);
        [exact Hv|exact Hnv|lia| |discriminate].
      rewrite Hsplit.
      apply packet_loop_gives_up; [exact Hb|exact Hbefore|exact Hk|].
      apply retried_three_times; assumption.
    + reflexivity.
    + reflexivity.
  - rewrite !count_command_app. subst frames.
    rewrite count_command_packets by discriminate. reflexivity.
Qed.

Lemma retry_budget_witness :
  let frame := packet_frame sample_image 1 in
  let checksum_error := reply CHECKSUM_ERROR [] in
  exchange (send_update_file "fw.bin" (file_bytes sample_image) 1)
    (handshake sample_version_data ++ flat_map (fun _ : Z => reply ACK []) [0]
       ++ checksum_error ++ checksum_error ++ checksum_error)
    (Ret false)
    (opening 1 sample_version_data (len sample_image)
       ++ map (packet_frame sample_image) [0]
       ++ [frame; frame; frame] ++ [request ABORT_UPDATE []]).
Proof.
  refine (proj1 (proj2 (proj2 (proj2
            (retry_budget "fw.bin" sample_image 1 sample_version_data
                          [0] 1 [2] _ _ _ _ _))))).
  - reflexivity.
  - vm_compute. discriminate.
  - reflexivity.
  - reflexivity.
  - lia.
Defined.




(** ** The width of the sequence number *)

Lemma le_value_le_bytes_2 k : 0 <= k <= 65535 -> le_value (le_bytes 2 k) = k.
Proof.
  intros Hk. cbn [le_bytes le_value fold_right].
  pose proof (Z.div_mod k 256 ltac:(lia)).
  rewrite (Z.mod_small (k / 256))
    by (split; [apply Z.div_pos; lia|apply Z.div_lt_upper_bound; lia]).
  lia.
Qed.

(** C10 -- Width of the sequence number.  The sequence field of a packet is
    its index packed as two bytes, low byte first, which [struct.pack] does
    for the indices 0 to 65535: an image of at most 65536 packets
    ([file_size <= 16 * 65536]) has every packet carry its own index.  For
    an index beyond, [struct.pack] raises; so for a larger image, once the
    device has acknowledged the packets 0 to 65535, [send_update_file] ends
    with that exception: it returns neither [True] nor [False] and has
    written no [ABORT_UPDATE]. *)
Theorem sequence_number_width (file_data : list Z) :
  (forall k, is_bytes file_data = true -> 0 <= k <= 65535 ->
     packet_content file_data k = Ret (packet_record file_data k) /\
     firstn 2 (packet_record file_data k) = [k mod 256; k / 256] /\
     le_value (firstn 2 (packet_record file_data k)) = k) /\
  (len file_data <= 16 * 65536 ->
   forall k, In k (range (total_packets (len file_data))) -> 0 <= k <= 65535) /\
  (forall k checksum, ~ 0 <= k <= 65535 ->
     exists msg, pack_HB k checksum = Raise (struct_error msg)) /\
  (forall filepath new_version vdata,
     is_bytes file_data = true ->
     16 * 65536 < len file_data < 2 ^ 32 ->
     len vdata = 16 -> 0 <= new_version < 2 ^ 32 ->
     let sent :=
       opening new_version vdata (len file_data)
         ++ map (packet_frame file_data) (range 65536) in
     (exists msg,
        exchange (send_update_file filepath (file_bytes file_data) new_version)
          (handshake vdata
             ++ flat_map (fun _ : Z => reply ACK []) (range 65536))
          (Raise (struct_error msg)) sent) /\
     count_command ABORT_UPDATE sent = 0%nat).
Proof.
  split; [|split; [|split]].
  - intros k Hb Hk. split; [apply packet_content_ok; assumption|].
    assert (E : firstn 2 (packet_record file_data k) = le_bytes 2 k)
      by reflexivity.
    rewrite E. split; [|apply le_value_le_bytes_2, Hk].
    cbn [le_bytes]. rewrite (Z.mod_small (k / 256)); [reflexivity|].
    split; [apply Z.div_pos; lia|apply Z.div_lt_upper_bound; lia].
  - intros Hn k Hk. apply range_In in Hk.
    pose proof (total_packets_ceil (len file_data) (len_nonneg _)). lia.
  - intros k checksum Hk. unfold pack_HB.
    destruct (pack_H_overflow k Hk) as [msg ->]. exists msg. reflexivity.
  - intros filepath new_version vdata Hb Hn Hv Hnv sent. split.
    + apply session_overflow; assumption.
    + subst sent. rewrite count_command_app.
      rewrite count_command_packets by discriminate. reflexivity.
Qed.

Lemma sequence_number_width_witness :
  exists msg,
    exchange (send_update_file "big.bin" (file_bytes large_image) 1)
      (handshake sample_version_data
         ++ flat_map (fun _ : Z => reply ACK []) (range 65536))
      (Raise (struct_error msg))
      (opening 1 sample_version_data (len large_image)
         ++ map (packet_frame large_image) (range 65536)).
Proof.
  refine (proj1 (proj2 (proj2 (proj2 (sequence_number_width large_image)))
                   "big.bin"%string 1 sample_version_data _ _ _ _)).
  - apply is_bytes_repeat. reflexivity.
  - unfold large_image. rewrite len_repeat. lia.
  - reflexivity.
  - lia.
Defined.

(** ** Every path through [read_response] *)

Section ReadResponse.
Variables (evs : list rx_event) (txs : list (list Z))
          (wf : list port_answer) (c : list string).

Let world := mkWorld true evs txs wf c.
Let after (rest : list rx_event) (lines : list string) :=
  mkWorld true rest txs wf (c ++ lines).

Lemma read_response_header_fault e rest1 :
  read_events 2 evs = (Raise e, rest1) ->
  read_response world = (Ret (None, []), after rest1 [read_fault_line e]).
Proof.
  intros H. unfold read_response, world.
  unfold bind at 1. unfold get_port_open at 1. cbn [port_open negb].
  unfold try_except, bind at 1, serial_read.
  cbn [rx port_open tx wfaults console].
  change (Z.to_nat 2) with 2%nat. rewrite H. reflexivity.
Qed.

Lemma read_response_short_header header rest1 :
  read_events 2 evs = (Ret header, rest1) -> len header <> 2 ->
  read_response world = (Ret (None, []), after rest1 [header_failure_line]).
Proof.
  intros H Hn. unfold read_response, world.
  unfold bind at 1. unfold get_port_open at 1. cbn [port_open negb].
  unfold try_except, bind at 1, serial_read.
  cbn [rx port_open tx wfaults console].
  change (Z.to_nat 2) with 2%nat. rewrite H.
  rewrite (proj2 (Z.eqb_neq _ _) Hn). reflexivity.
Qed.

Variables (code length : Z) (rest1 : list rx_event).
Hypothesis header_read : read_events 2 evs = (Ret [code; length], rest1).

(** The world once the header is read and shown. *)
Let world1 := mkWorld true rest1 txs wf (c ++ [received_line code length]).

Lemma read_response_after_header :
  read_response world
  = try_except
      (data <- (if 0 <? length then serial_read length else ret []) ;;
       checksum_byte <- serial_read 1 ;;
       if negb (len checksum_byte =? 1) then
         print "Failed to read checksum" ;;;
         ret (None, [])
       else
         let expected_checksum := xor_bytes (Z.lxor code length) data in
         if negb (expected_checksum =? nth 0 checksum_byte 0) then
           print (checksum_error_line expected_checksum
                    (nth 0 checksum_byte 0)) ;;;
           ret (None, [])
         else
           match Response_.of_value code with
           | Some response => ret (Some response, data)
           | None =>
               print (unknown_code_line code) ;;;
               ret (None, [])
           end)
      (fun e => print (read_fault_line e) ;;; ret (None, []))
      world1.
Proof.
  unfold read_response, world.
  unfold bind at 1. unfold get_port_open at 1. cbn [port_open negb].
  unfold try_except, bind at 1, serial_read at 1.
  cbn [rx port_open tx wfaults console].
  change (Z.to_nat 2) with 2%nat. rewrite header_read.
  change (len [code; length] =? 2) with true. cbn [negb nth].
  unfold bind at 1, print at 1. cbn [port_open rx tx wfaults console].
  reflexivity.
Qed.

Lemma data_read_eq :
  (if 0 <? length then serial_read length else ret []) world1
  = (fst (data_read length rest1),
     mkWorld true (snd (data_read length rest1)) txs wf (c ++ [received_line code length])).
Proof.
  unfold data_read, world1. destruct (0 <? length).
  - unfold serial_read. cbn [rx port_open tx wfaults console].
    destruct (read_events (Z.to_nat length) rest1). reflexivity.
  - reflexivity.
Qed.

Lemma read_response_data_fault e rest2 :
  data_read length rest1 = (Raise e, rest2) ->
  read_response world
  = (Ret (None, []),
     after rest2 [received_line code length; read_fault_line e]).
Proof.
  intros H. rewrite read_response_after_header.
  unfold try_except, bind at 1. rewrite data_read_eq, H.
  cbn [fst snd]. unfold bind, print, ret, after.
  cbn [port_open rx tx wfaults console]. rewrite <- app_assoc. reflexivity.
Qed.

Variables (data : list Z) (rest2 : list rx_event).
Hypothesis data_read_ok : data_read length rest1 = (Ret data, rest2).

Lemma read_response_checksum_fault e rest3 :
  read_events 1 rest2 = (Raise e, rest3) ->
  read_response world
  = (Ret (None, []),
     after rest3 [received_line code length; read_fault_line e]).
Proof.
  intros H. rewrite read_response_after_header.
  unfold try_except, bind at 1. rewrite data_read_eq, data_read_ok.
  cbn [fst snd]. unfold bind at 1, serial_read.
  cbn [rx port_open tx wfaults console]. change (Z.to_nat 1) with 1%nat.
  rewrite H. unfold bind, print, ret, after.
  cbn [port_open rx tx wfaults console]. rewrite <- app_assoc. reflexivity.
Qed.

Variables (checksum_byte : list Z) (rest3 : list rx_event).
Hypothesis checksum_read : read_events 1 rest2 = (Ret checksum_byte, rest3).

Let expected := xor_bytes (Z.lxor code length) data.
Let got := nth 0 checksum_byte 0.

Lemma read_response_verdict :
  read_response world
  = if len checksum_byte =? 1 then
      if expected =? got then
        match Response_.of_value code with
        | Some response =>
            (Ret (Some response, data), after rest3 [received_line code length])
        | None =>
            (Ret (None, []),
             after rest3 [received_line code length; unknown_code_line code])
        end
      else
        (Ret (None, []),
         after rest3 [received_line code length;
                      checksum_error_line expected got])
    else
      (Ret (None, []),
       after rest3 [received_line code length; checksum_read_failure_line]).
Proof.
  rewrite read_response_after_header.
  unfold try_except, bind at 1. rewrite data_read_eq, data_read_ok.
  cbn [fst snd]. unfold bind at 1, serial_read.
  cbn [rx port_open tx wfaults console]. change (Z.to_nat 1) with 1%nat.
  rewrite checksum_read. fold got. cbv zeta. fold expected.
  unfold after.
  destruct (len checksum_byte =? 1); cbn [negb].
  - destruct (expected =? got); cbn [negb].
    + destruct (Response_.of_value code).
      * reflexivity.
      * unfold bind, print, ret. cbn [port_open rx tx wfaults console].
        rewrite <- app_assoc. reflexivity.
    + unfold bind, print, ret. cbn [port_open rx tx wfaults console].
      rewrite <- app_assoc. reflexivity.
  - unfold bind, print, ret. cbn [port_open rx tx wfaults console].
    rewrite <- app_assoc. reflexivity.
Qed.
End ReadResponse.

(** C7, as stated, does not hold.  A header cut short, a checksum that
    disagrees and an unknown code byte all make [read_response] return the
    same value [(None, b'')], so nothing computed from what it returns tells
    the three apart; and a payload cut short is no failure when the byte
    that arrives next happens to match the checksum. *)
Lemma receive_failures_not_distinguished :
  let truncated := fst (read_response (idle_port [RxByte 0x10])) in
  let mismatch := fst (read_response (idle_port (map RxByte [0x10; 0; 0x11]))) in
  let unknown := fst (read_response (idle_port (map RxByte [0x77; 0; 0x77]))) in
  truncated = Ret (None, []) /\ mismatch = Ret (None, []) /\
  unknown = Ret (None, []) /\
  ~ (exists classify : result (option Response * list Z) -> receive_failure,
       classify truncated = Truncated /\
       classify mismatch = ChecksumMismatch /\
       classify unknown = UnknownCode) /\
  fst (read_response
         (idle_port [RxByte 0x10; RxByte 1; RxTimeout; RxByte 0x11]))
  = Ret (Some ACK, []).
Proof.
  cbv zeta.
  assert (E1 : fst (read_response (idle_port [RxByte 0x10])) = Ret (None, []))
    by (vm_compute; reflexivity).
  assert (E2 : fst (read_response (idle_port (map RxByte [0x10; 0; 0x11])))
               = Ret (None, [])) by (vm_compute; reflexivity).
  assert (E3 : fst (read_response (idle_port (map RxByte [0x77; 0; 0x77])))
               = Ret (None, [])) by (vm_compute; reflexivity).
  rewrite E1, E2, E3.
  split; [reflexivity|]. split; [reflexivity|]. split; [reflexivity|].
  split.
  - intros [classify [H1 [H2 _]]]. congruence.
  - vm_compute. reflexivity.
Qed.

(** C7, amended -- [read_response] reports every failure with the one value
    [(None, b'')]; the causes differ in the line printed.  With the port
    open and no read raising: a header of fewer than 2 bytes prints "Failed
    to read response header"; a missing checksum byte prints "Failed to read
    checksum"; a checksum byte that differs from the XOR of code, length and
    the data read prints "Response checksum error: ..."; a code byte that is
    no [Response], under a checksum that agrees, prints "Unknown response
    code: ..."; these four lines are different from one another.  Otherwise
    the response and the data read are returned. *)
Theorem receive_failures_share_one_result evs txs wf c :
  let world := mkWorld true evs txs wf c in
  let after rest lines := mkWorld true rest txs wf (c ++ lines) in
  (forall header rest1,
     read_events 2 evs = (Ret header, rest1) -> len header <> 2 ->
     read_response world = (Ret (None, []), after rest1 [header_failure_line])) /\
  (forall code length rest1 data rest2 checksum_byte rest3,
     read_events 2 evs = (Ret [code; length], rest1) ->
     data_read length rest1 = (Ret data, rest2) ->
     read_events 1 rest2 = (Ret checksum_byte, rest3) ->
     let expected := xor_bytes (Z.lxor code length) data in
     let got := nth 0 checksum_byte 0 in
     let received := received_line code length in
     (len checksum_byte <> 1 ->
      read_response world
      = (Ret (None, []), after rest3 [received; checksum_read_failure_line])) /\
     (len checksum_byte = 1 -> expected <> got ->
      read_response world
      = (Ret (None, []),
         after rest3 [received; checksum_error_line expected got])) /\
     (len checksum_byte = 1 -> expected = got ->
      Response_.of_value code = None ->
      read_response world
      = (Ret (None, []), after rest3 [received; unknown_code_line code])) /\
     (len checksum_byte = 1 -> expected = got ->
      forall response, Response_.of_value code = Some response ->
      read_response world
      = (Ret (Some response, data), after rest3 [received]))) /\
  (header_failure_line <> checksum_read_failure_line /\
   forall expected got code,
     checksum_error_line expected got <> header_failure_line /\
     checksum_error_line expected got <> checksum_read_failure_line /\
     unknown_code_line code <> header_failure_line /\
     unknown_code_line code <> checksum_read_failure_line /\
     unknown_code_line code <> checksum_error_line expected got).
Proof.
  intros world after. split; [|split].
  - intros header rest1 H Hn.
    exact (read_response_short_header evs txs wf c header rest1 H Hn).
  - intros code length rest1 data rest2 checksum_byte rest3 H1 H2 H3
           expected got received.
    pose proof (read_response_verdict evs txs wf c code length rest1 H1
                  data rest2 H2 checksum_byte rest3 H3) as V.
    fold world expected got received in V. cbv zeta in V.
    repeat split.
    + intros Hn. rewrite V, (proj2 (Z.eqb_neq _ _) Hn). reflexivity.
    + intros Hn Hne. rewrite V, (proj2 (Z.eqb_eq _ _) Hn).
      fold expected got. rewrite (proj2 (Z.eqb_neq _ _) Hne). reflexivity.
    + intros Hn He Hu. rewrite V, (proj2 (Z.eqb_eq _ _) Hn).
      fold expected got. rewrite (proj2 (Z.eqb_eq _ _) He), Hu. reflexivity.
    + intros Hn He response Hr. rewrite V, (proj2 (Z.eqb_eq _ _) Hn).
      fold expected got. rewrite (proj2 (Z.eqb_eq _ _) He), Hr. reflexivity.
  - split; [discriminate|].
    intros expected got code.
    unfold checksum_error_line, unknown_code_line, header_failure_line,
      checksum_read_failure_line.
    cbn [append]. repeat split; discriminate.
Qed.

Lemma receive_failures_share_one_result_witness :
  read_response (mkWorld true (map RxByte [0x10; 0; 0x11]) [] [] [])
  = (Ret (None, []),
     mkWorld true [] [] []
       ([] ++ [received_line 0x10 0;
               checksum_error_line (xor_bytes (Z.lxor 0x10 0) []) 0x11])).
Proof.
  refine (proj1 (proj2
            (proj1 (proj2 (receive_failures_share_one_result
                             (map RxByte [0x10; 0; 0x11]) [] [] []))
               0x10 0 [RxByte 0x11] [] [RxByte 0x11] [0x11] [] _ _ _)) _ _).
  - reflexivity.
  - reflexivity.
  - reflexivity.
  - reflexivity.
  - vm_compute. discriminate.
Defined.

(** ** One bit of a frame flipped *)

Lemma flip_bit_length frame : forall index bit,
  List.length (flip_bit frame index bit) = List.length frame.
Proof.
  induction frame as [|b frame IH]; intros [|index] bit; cbn; try reflexivity.
  rewrite IH. reflexivity.
Qed.

Lemma flip_bit_app_l l1 l2 : forall index bit,
  (index < List.length l1)%nat ->
  flip_bit (l1 ++ l2) index bit = flip_bit l1 index bit ++ l2.
Proof.
  induction l1 as [|b l1 IH]; intros [|index] bit H; cbn in *;
    try lia; try reflexivity.
  rewrite IH by lia. reflexivity.
Qed.

Lemma flip_bit_app_r l1 l2 index bit :
  flip_bit (l1 ++ l2) (List.length l1 + index) bit = l1 ++ flip_bit l2 index bit.
Proof.
  induction l1 as [|b l1 IH]; cbn; [reflexivity|]. rewrite IH. reflexivity.
Qed.

Lemma xor_bytes_from c l : xor_bytes c l = Z.lxor c (xor_bytes 0 l).
Proof.
  unfold xor_bytes. revert c.
  induction l as [|b l IH]; intros c; cbn [fold_left].
  - rewrite Z.lxor_0_r. reflexivity.
  - rewrite IH, (IH (Z.lxor 0 b)), Z.lxor_0_l, Z.lxor_assoc. reflexivity.
Qed.

Lemma xor_bytes_flip l : forall index bit c,
  (index < List.length l)%nat ->
  xor_bytes c (flip_bit l index bit) = Z.lxor (xor_bytes c l) (2 ^ bit).
Proof.
  induction l as [|b l IH]; intros [|index] bit c H; cbn in H; try lia.
  - cbn [flip_bit]. unfold xor_bytes. cbn [fold_left].
    fold (xor_bytes (Z.lxor c (Z.lxor b (2 ^ bit))) l).
    fold (xor_bytes (Z.lxor c b) l).
    rewrite xor_bytes_from, (xor_bytes_from (Z.lxor c b)).
    rewrite !Z.lxor_assoc. f_equal. f_equal. apply Z.lxor_comm.
  - cbn [flip_bit]. unfold xor_bytes. cbn [fold_left].
    apply IH. lia.
Qed.

Lemma lxor_bit_changes a bit : 0 <= bit -> Z.lxor a (2 ^ bit) <> a.
Proof.
  intros Hb E.
  assert (H : Z.lxor a (Z.lxor a (2 ^ bit)) = 0)
    by (rewrite E; apply Z.lxor_nilpotent).
  rewrite <- Z.lxor_assoc, Z.lxor_nilpotent, Z.lxor_0_l in H.
  pose proof (Z.pow_pos_nonneg 2 bit ltac:(lia) Hb). lia.
Qed.

Lemma lxor_cancel_l a b c : Z.lxor a b = Z.lxor a c -> b = c.
Proof.
  intros E. apply (f_equal (Z.lxor a)) in E.
  rewrite <- !Z.lxor_assoc, Z.lxor_nilpotent, !Z.lxor_0_l in E. exact E.
Qed.

(** C8, as stated, does not hold.  The frame of [ACK] with the payload
    [[0x10]] is [[0x10; 1; 0x10; 1]]; with bit 0 of its length byte flipped
    it reads as a frame of length 0 whose checksum byte is the former
    payload byte, which agrees: [read_response] accepts it as [ACK] with an
    empty payload. *)
Lemma flipped_length_is_accepted :
  build_frame (Response_.value ACK) [0x10] = Ret [0x10; 1; 0x10; 1] /\
  flip_bit [0x10; 1; 0x10; 1] 1 0 = [0x10; 0; 0x10; 1] /\
  fst (read_response
         (idle_port (map RxByte (flip_bit [0x10; 1; 0x10; 1] 1 0))))
  = Ret (Some ACK, []).
Proof. repeat split; vm_compute; reflexivity. Qed.

(** C8, amended -- For every frame built for a response and a payload of at
    most 255 bytes, a flip of one bit in the code byte, in a payload byte or
    in the checksum byte (any byte but the length byte) is caught by the
    checksum: [read_response] reads the whole frame, finds the checksum byte
    different from the XOR it computes, prints "Response checksum error:
    ..." and returns [(None, b'')]. *)
Theorem checksum_catches_bit_flip (r : Response) (payload : list Z)
    (index : nat) (bit : Z) :
  len payload <= 255 -> is_bytes payload = true ->
  (index < List.length payload + 3)%nat -> index <> 1%nat -> 0 <= bit < 8 ->
  exists frame,
    build_frame (Response_.value r) payload = Ret frame /\
    forall rest txs wf c,
    exists code expected got,
      expected <> got /\
      read_response
        (mkWorld true (map RxByte (flip_bit frame index bit) ++ rest) txs wf c)
      = (Ret (None, []),
         mkWorld true rest txs wf
           (c ++ [received_line code (len payload);
                  checksum_error_line expected got])).
Proof.
  intros Hn Hb Hi H1 Hbit.
  exists (wire (Response_.value r) payload). split.
  { apply build_frame_wire; [destruct r; simpl; lia|assumption|assumption]. }
  intros rest txs wf c. unfold wire.
  set (code := Response_.value r).
  set (cs := xor_bytes 0 (code :: len payload :: payload)).
  destruct index as [|[|index]]; [| congruence |].
  - (* the code byte *)
    cbn [flip_bit].
    exists (Z.lxor code (2 ^ bit)),
           (xor_bytes (Z.lxor (Z.lxor code (2 ^ bit)) (len payload)) payload), cs.
    assert (Hne : xor_bytes (Z.lxor (Z.lxor code (2 ^ bit)) (len payload)) payload
                  <> cs).
    { subst cs. rewrite xor_bytes_header.
      rewrite xor_bytes_from, (xor_bytes_from (Z.lxor code _)).
      rewrite (Z.lxor_comm (Z.lxor _ _) (xor_bytes 0 payload)).
      rewrite (Z.lxor_comm (Z.lxor code (len payload)) (xor_bytes 0 payload)).
      intros E. apply lxor_cancel_l in E.
      rewrite (Z.lxor_comm _ (len payload)), (Z.lxor_comm code (len payload)) in E.
      apply lxor_cancel_l in E. revert E. apply lxor_bit_changes. lia. }
    split; [exact Hne|].
    rewrite read_response_frame. cbv zeta.
    rewrite (proj2 (Z.eqb_neq _ _) Hne), <- app_assoc. reflexivity.
  - destruct (Nat.lt_ge_cases index (List.length payload)) as [Hp|Hp].
    + (* a payload byte *)
      cbn [flip_bit]. rewrite flip_bit_app_l by exact Hp.
      assert (Hlen : len (flip_bit payload index bit) = len payload)
        by (unfold len; rewrite flip_bit_length; reflexivity).
      exists code,
             (xor_bytes (Z.lxor code (len payload)) (flip_bit payload index bit)),
             cs.
      assert (Hne : xor_bytes (Z.lxor code (len payload))
                              (flip_bit payload index bit) <> cs).
      { subst cs. rewrite xor_bytes_header, xor_bytes_flip by exact Hp.
        apply lxor_bit_changes. lia. }
      split; [exact Hne|].
      rewrite <- Hlen at 1. rewrite read_response_frame. cbv zeta.
      rewrite !Hlen, (proj2 (Z.eqb_neq _ _) Hne), <- app_assoc. reflexivity.
    + (* the checksum byte *)
      assert (index = List.length payload) by lia. subst index.
      cbn [flip_bit].
      rewrite <- (Nat.add_0_r (List.length payload)), flip_bit_app_r.
      cbn [flip_bit].
      exists code, (xor_bytes (Z.lxor code (len payload)) payload),
             (Z.lxor cs (2 ^ bit)).
      assert (Hne : xor_bytes (Z.lxor code (len payload)) payload
                    <> Z.lxor cs (2 ^ bit)).
      { subst cs. rewrite xor_bytes_header.
        intros E. symmetry in E. revert E. apply lxor_bit_changes. lia. }
      split; [exact Hne|].
      rewrite read_response_frame. cbv zeta.
      rewrite (proj2 (Z.eqb_neq _ _) Hne), <- app_assoc. reflexivity.
Qed.

Lemma checksum_catches_bit_flip_witness :
  exists frame,
    build_frame (Response_.value ACK) [0x10] = Ret frame /\
    forall rest txs wf c,
    exists code expected got,
      expected <> got /\
      read_response
        (mkWorld true (map RxByte (flip_bit frame 2 0) ++ rest) txs wf c)
      = (Ret (None, []),
         mkWorld true rest txs wf
           (c ++ [received_line code (len [0x10]);
                  checksum_error_line expected got])).
Proof.
  refine (checksum_catches_bit_flip ACK [0x10] 2 0 _ _ _ _ _).
  - vm_compute. discriminate.
  - reflexivity.
  - cbn. lia.
  - discriminate.
  - lia.
Defined.

(** * Beyond the claims: the rest of the host *)

(** ** What [send_command] and [read_response] do in every state *)

Lemma beginning_of_whole (frame : list Z) : beginning_of frame frame.
Proof. exists (List.length frame). symmetry. apply firstn_all. Qed.

Lemma beginning_of_on_line frame f : beginning_of frame (on_line frame f).
Proof.
  destruct f as [written msg|msg]; cbn [on_line].
  - exists written. reflexivity.
  - apply beginning_of_whole.
Qed.

Lemma send_command_effect cmd data w :
  exists b w',
    send_command cmd data w = (Ret b, w') /\
    port_open w' = port_open w /\ rx w' = rx w /\
    (b = true ->
     port_open w = true /\
     exists frame,
       build_frame (Command_.value cmd) data = Ret frame /\
       tx w' = tx w ++ [frame] /\ wfaults w' = tl (tl (wfaults w))) /\
    (b = false ->
     tx w' = tx w \/
     exists frame piece,
       port_open w = true /\
       build_frame (Command_.value cmd) data = Ret frame /\
       beginning_of frame piece /\ tx w' = tx w ++ [piece]) /\
    (port_open w = false \/
     (exists e, build_frame (Command_.value cmd) data = Raise e) ->
     b = false /\ tx w' = tx w /\ wfaults w' = wfaults w).
Proof.
  unfold send_command, bind, get_port_open, try_except, lift, print, ret,
    serial_write, serial_flush.
  destruct (port_open w) eqn:Ho; cbn [negb].
  - destruct (build_frame (Command_.value cmd) data) as [frame|e].
    + cbn [port_open rx tx wfaults console].
      destruct (wfaults w) as [|[|written msg] more] eqn:Hw;
        cbn [next_answer port_open rx tx wfaults console].
      * exists true. eexists. split; [reflexivity|].
        cbn [port_open rx tx wfaults console tl].
        split; [easy|]. split; [reflexivity|].
        split; [|split; [discriminate|]].
        -- intros _. split; [easy|].
           exists frame. split; [reflexivity|]. split; reflexivity.
        -- intros [H|[e H]]; discriminate.
      * destruct more as [|[|written msg] more];
          cbn [next_answer port_open rx tx wfaults console].
        -- exists true. eexists. split; [reflexivity|].
           cbn [port_open rx tx wfaults console tl].
           split; [easy|]. split; [reflexivity|].
           split; [|split; [discriminate|]].
           ++ intros _. split; [easy|].
              exists frame. split; [reflexivity|]. split; reflexivity.
           ++ intros [H|[e H]]; discriminate.
        -- exists true. eexists. split; [reflexivity|].
           cbn [port_open rx tx wfaults console tl].
           split; [easy|]. split; [reflexivity|].
           split; [|split; [discriminate|]].
           ++ intros _. split; [easy|].
              exists frame. split; [reflexivity|]. split; reflexivity.
           ++ intros [H|[e H]]; discriminate.
        -- exists false. eexists. split; [reflexivity|].
           cbn [port_open rx tx wfaults console].
           split; [easy|]. split; [reflexivity|].
           split; [discriminate|]. split.
           ++ intros _. right. exists frame, frame.
              split; [easy|]. split; [reflexivity|].
              split; [apply beginning_of_whole|reflexivity].
           ++ intros [H|[e H]]; discriminate.
      * exists false. eexists. split; [reflexivity|].
        cbn [port_open rx tx wfaults console].
        split; [easy|]. split; [reflexivity|].
        split; [discriminate|]. split.
        -- intros _. right. exists frame, (firstn written frame).
           split; [easy|]. split; [reflexivity|].
           split; [exists written; reflexivity|reflexivity].
        -- intros [H|[e H]]; discriminate.
    + exists false. eexists. split; [reflexivity|].
      cbn [port_open rx tx wfaults console].
      split; [easy|]. split; [reflexivity|].
      split; [discriminate|]. split.
      * intros _. left. reflexivity.
      * intros _. repeat split.
  - exists false. eexists. split; [reflexivity|].
    cbn [port_open rx tx wfaults console].
    split; [easy|]. split; [reflexivity|].
    split; [discriminate|]. split.
    + intros _. left. reflexivity.
    + intros _. repeat split.
Qed.

Lemma send_command_fails cmd data frame f evs txs wf c :
  build_frame (Command_.value cmd) data = Ret frame ->
  send_command cmd data (mkWorld true evs txs (answers_of f ++ wf) c)
  = (Ret false,
     mkWorld true evs (txs ++ [on_line frame f]) wf
       (c ++ [sending_line cmd frame;
              ("Failed to send command: " ++ failure_message f)%string])).
Proof.
  intros Hframe. unfold send_command.
  unfold bind at 1. unfold get_port_open at 1. cbn [port_open negb].
  unfold try_except, bind at 1, lift. rewrite Hframe.
  unfold bind, print, serial_write, serial_flush, ret.
  destruct f as [written msg|msg];
    cbn [answers_of app next_answer on_line failure_message
         port_open rx tx wfaults console exn_str];
    rewrite <- app_assoc; reflexivity.
Qed.

Lemma send_command_written cmd data frame evs txs wf c :
  build_frame (Command_.value cmd) data = Ret frame ->
  send_command cmd data (mkWorld true evs txs (Returns :: Returns :: wf) c)
  = (Ret true,
     mkWorld true evs (txs ++ [frame]) wf (c ++ [sending_line cmd frame])).
Proof.
  intros Hframe. unfold send_command.
  unfold bind at 1. unfold get_port_open at 1. cbn [port_open negb].
  unfold try_except, bind at 1, lift. rewrite Hframe. reflexivity.
Qed.

(** X1 -- [send_command] never raises, and [False] does not mean that
    nothing went out.  It returns [True] only when [write] and [flush] have
    both returned: the frame of the command and the data is then on the
    line.  When the port is not open, or [struct.pack] refuses the data, it
    returns [False] and has written nothing.  In every other case of
    [False] the [write] or the [flush] has raised, and the first bytes of
    the frame, or all of it, are on the line: all of it when it was the
    [flush] that raised.  It reads nothing and leaves the port as it is. *)
Theorem send_command_writes_or_fails cmd data :
  (forall w,
   exists b w',
     send_command cmd data w = (Ret b, w') /\
     port_open w' = port_open w /\ rx w' = rx w /\
     (b = true ->
      port_open w = true /\
      exists frame,
        build_frame (Command_.value cmd) data = Ret frame /\
        tx w' = tx w ++ [frame] /\ wfaults w' = tl (tl (wfaults w))) /\
     (b = false ->
      tx w' = tx w \/
      exists frame piece,
        port_open w = true /\
        build_frame (Command_.value cmd) data = Ret frame /\
        beginning_of frame piece /\ tx w' = tx w ++ [piece]) /\
     (port_open w = false \/
      (exists e, build_frame (Command_.value cmd) data = Raise e) ->
      b = false /\ tx w' = tx w /\ wfaults w' = wfaults w)) /\
  (forall frame f evs txs wf c,
     build_frame (Command_.value cmd) data = Ret frame ->
     send_command cmd data (mkWorld true evs txs (answers_of f ++ wf) c)
     = (Ret false,
        mkWorld true evs (txs ++ [on_line frame f]) wf
          (c ++ [sending_line cmd frame;
                 ("Failed to send command: " ++ failure_message f)%string]))).
Proof.
  split.
  - intros w. exact (send_command_effect cmd data w).
  - intros frame f evs txs wf c. apply send_command_fails.
Qed.

Lemma send_command_writes_or_fails_witness :
  send_command GET_VERSION []
    (mkWorld true [] [] (answers_of (flush_raises "device gone") ++ []) [])
  = (Ret false,
     mkWorld true [] ([] ++ [on_line [4; 0; 4] (flush_raises "device gone")]) []
       ([] ++ [sending_line GET_VERSION [4; 0; 4];
               ("Failed to send command: "
                  ++ failure_message (flush_raises "device gone"))%string])).
Proof.
  refine (proj2 (send_command_writes_or_fails GET_VERSION [])
            [4; 0; 4] (flush_raises "device gone"%string) [] [] [] [] _).
  reflexivity.
Defined.

Lemma len_2_inv (l : list Z) : len l = 2 -> exists a b, l = [a; b].
Proof.
  destruct l as [|a [|b [|c l]]]; unfold len; cbn; intros H; try lia.
  exists a, b. reflexivity.
Qed.

Lemma read_response_total w :
  exists res w',
    read_response w = (Ret res, w') /\
    port_open w' = port_open w /\ tx w' = tx w /\ wfaults w' = wfaults w /\
    (res = (None, []) \/ exists r data, res = (Some r, data)) /\
    (port_open w = false -> w' = w /\ res = (None, [])).
Proof.
  destruct w as [opened evs txs wf c]. destruct opened.
  2:{ exists (None, []). eexists. split; [reflexivity|].
      cbn [port_open tx wfaults]. repeat (split; [reflexivity|]).
      split; [left; reflexivity|]. intros _. split; reflexivity. }
  cbn [port_open tx wfaults].
  assert (Done : forall res rest lines,
            read_response (mkWorld true evs txs wf c)
            = (Ret res, mkWorld true rest txs wf (c ++ lines)) ->
            (res = (None, []) \/ exists r data, res = (Some r, data)) ->
            exists res w',
              read_response (mkWorld true evs txs wf c) = (Ret res, w') /\
              port_open w' = true /\ tx w' = txs /\ wfaults w' = wf /\
              (res = (None, []) \/ exists r data, res = (Some r, data)) /\
              (true = false -> w' = mkWorld true evs txs wf c /\ res = (None, []))).
  { intros res rest lines E Hres. exists res. eexists. split; [exact E|].
    cbn [port_open tx wfaults]. repeat (split; [reflexivity|]).
    split; [exact Hres|discriminate]. }
  destruct (read_events 2 evs) as [[header|e] rest1] eqn:E1.
  2:{ eapply Done; [apply read_response_header_fault; exact E1|left; reflexivity]. }
  destruct (Z.eq_dec (len header) 2) as [H2|H2].
  2:{ eapply Done; [eapply read_response_short_header; eassumption|left; reflexivity]. }
  destruct (len_2_inv header H2) as [code [length ->]].
  destruct (data_read length rest1) as [[data|e] rest2] eqn:E2.
  2:{ eapply Done; [eapply read_response_data_fault; eassumption|left; reflexivity]. }
  destruct (read_events 1 rest2) as [[checksum_byte|e] rest3] eqn:E3.
  2:{ eapply Done; [eapply read_response_checksum_fault; eassumption|left; reflexivity]. }
  pose proof (read_response_verdict evs txs wf c code length rest1 E1
                data rest2 E2 checksum_byte rest3 E3) as V.
  cbv zeta in V.
  destruct (len checksum_byte =? 1);
    [destruct (xor_bytes (Z.lxor code length) data =? nth 0 checksum_byte 0);
     [destruct (Response_.of_value code) as [response|]|]|];
    (eapply Done; [exact V|]);
    first [left; reflexivity | right; eexists; eexists; reflexivity].
Qed.

(** X2 -- [read_response] never raises, writes nothing and leaves the port
    as it is; it returns either a response with its data or [(None, b'')].
    On a port that is not open it returns [(None, b'')] at once, reading
    and printing nothing. *)
Theorem read_response_never_raises w :
  exists res w',
    read_response w = (Ret res, w') /\
    port_open w' = port_open w /\ tx w' = tx w /\ wfaults w' = wfaults w /\
    (res = (None, []) \/ exists r data, res = (Some r, data)) /\
    (port_open w = false -> w' = w /\ res = (None, [])).
Proof. exact (read_response_total w). Qed.

Lemma of_value_inv code r : Response_.of_value code = Some r -> code = Response_.value r.
Proof.
  unfold Response_.of_value.
  repeat match goal with
         | |- context [code =? ?v] => destruct (Z.eqb_spec code v)
         end; intros E; try discriminate; injection E as <-; assumption.
Qed.

Lemma read_events_length n : forall evs l rest,
  read_events n evs = (Ret l, rest) -> (List.length l <= n)%nat.
Proof.
  induction n as [|n IH]; intros evs l rest E; cbn in E.
  - injection E as <- _. cbn. lia.
  - destruct evs as [|[b| |msg] evs]; try (injection E as <- _; cbn; lia);
      try discriminate.
    destruct (read_events n evs) as [[l'|e] rest'] eqn:E'; cbn in E;
      [|discriminate].
    injection E as <- _. cbn. specialize (IH _ _ _ E'). lia.
Qed.

(** X3 -- What [read_response] accepts has passed its checks.  When it
    returns a response with data, the two header bytes read were the code
    of that response and a length, the data are what the read of that
    length returned (never more bytes than the length), one more byte was
    read, and that byte is the XOR of code, length and data. *)
Theorem accepted_response_was_checked evs txs wf c r data w' :
  read_response (mkWorld true evs txs wf c) = (Ret (Some r, data), w') ->
  exists length rest1 rest2 cs,
    read_events 2 evs = (Ret [Response_.value r; length], rest1) /\
    data_read length rest1 = (Ret data, rest2) /\
    read_events 1 rest2 = (Ret [cs], rx w') /\
    cs = xor_bytes (Z.lxor (Response_.value r) length) data /\
    len data <= Z.max 0 length.
Proof.
  intros H.
  destruct (read_events 2 evs) as [[header|e] rest1] eqn:E1.
  2:{ rewrite (read_response_header_fault evs txs wf c e rest1 E1) in H.
      discriminate. }
  destruct (Z.eq_dec (len header) 2) as [H2|H2].
  2:{ rewrite (read_response_short_header evs txs wf c header rest1 E1 H2) in H.
      discriminate. }
  destruct (len_2_inv header H2) as [code [length ->]].
  destruct (data_read length rest1) as [[data'|e] rest2] eqn:E2.
  2:{ rewrite (read_response_data_fault evs txs wf c code length rest1 E1
                 e rest2 E2) in H. discriminate. }
  destruct (read_events 1 rest2) as [[checksum_byte|e] rest3] eqn:E3.
  2:{ rewrite (read_response_checksum_fault evs txs wf c code length rest1 E1
                 data' rest2 E2 e rest3 E3) in H. discriminate. }
  rewrite (read_response_verdict evs txs wf c code length rest1 E1
             data' rest2 E2 checksum_byte rest3 E3) in H.
  cbv zeta in H.
  destruct (Z.eqb_spec (len checksum_byte) 1) as [Hc|Hc]; [|discriminate].
  destruct (Z.eqb_spec (xor_bytes (Z.lxor code length) data')
                       (nth 0 checksum_byte 0)) as [Hx|Hx]; [|discriminate].
  destruct (Response_.of_value code) as [response|] eqn:Hr; [|discriminate].
  injection H as -> -> <-. apply of_value_inv in Hr. subst code.
  destruct checksum_byte as [|cs [|x l]]; unfold len in Hc; cbn in Hc; try lia.
  exists length, rest1, rest2, cs. cbn [rx nth] in *.
  split; [reflexivity|]. split; [exact E2|]. split; [exact E3|].
  split; [symmetry; exact Hx|].
  unfold data_read in E2. destruct (Z.ltb_spec 0 length) as [Hl|Hl].
  - apply read_events_length in E2. unfold len. lia.
  - injection E2 as <- _. cbn. lia.
Qed.

Lemma accepted_response_was_checked_witness :
  exists length rest1 rest2 cs,
    read_events 2 (reply ERROR [3])
    = (Ret [Response_.value ERROR; length], rest1) /\
    data_read length rest1 = (Ret [3], rest2) /\
    read_events 1 rest2 = (Ret [cs], rx (mkWorld true [] [] [] [received_line 0x15 1])) /\
    cs = xor_bytes (Z.lxor (Response_.value ERROR) length) [3] /\
    len [3] <= Z.max 0 length.
Proof.
  refine (accepted_response_was_checked (reply ERROR [3]) [] [] [] ERROR [3]
            (mkWorld true [] [] [] [received_line 0x15 1]) _).
  vm_compute. reflexivity.
Defined.

(** ** [get_version_info] *)

Lemma le_value_le_bytes size : forall v,
  0 <= v < 256 ^ Z.of_nat size -> le_value (le_bytes size v) = v.
Proof.
  induction size as [|size IH]; intros v Hv.
  - cbn in *. lia.
  - cbn [le_bytes le_value fold_right]. fold (le_value (le_bytes size (v / 256))).
    rewrite Nat2Z.inj_succ, Z.pow_succ_r in Hv by lia.
    rewrite IH.
    + pose proof (Z.div_mod v 256 ltac:(lia)). lia.
    + split; [apply Z.div_pos; lia|apply Z.div_lt_upper_bound; lia].
Qed.

Lemma unpack_IIII_app la lb lc ld :
  len la = 4 -> len lb = 4 -> len lc = 4 -> len ld = 4 ->
  unpack_IIII (la ++ lb ++ lc ++ ld)
  = (le_value la, le_value lb, le_value lc, le_value ld).
Proof.
  unfold len. intros Ha Hb Hc Hd.
  destruct la as [|a0 [|a1 [|a2 [|a3 [|? ?]]]]]; cbn in Ha; try lia.
  destruct lb as [|b0 [|b1 [|b2 [|b3 [|? ?]]]]]; cbn in Hb; try lia.
  destruct lc as [|c0 [|c1 [|c2 [|c3 [|? ?]]]]]; cbn in Hc; try lia.
  destruct ld as [|d0 [|d1 [|d2 [|d3 [|? ?]]]]]; cbn in Hd; try lia.
  reflexivity.
Qed.

(** X4 -- [get_version_info] decodes what the device packed.  When the
    device answers [GET_VERSION] with [VERSION_INFO] and the four values
    packed as 32-bit little-endian integers, the method returns exactly
    these four values, having written one [GET_VERSION] packet. *)
Theorem get_version_info_decodes current_ver backup_ver current_addr backup_addr :
  0 <= current_ver < 2 ^ 32 -> 0 <= backup_ver < 2 ^ 32 ->
  0 <= current_addr < 2 ^ 32 -> 0 <= backup_addr < 2 ^ 32 ->
  exchange get_version_info
    (reply VERSION_INFO
       (le_bytes 4 current_ver ++ le_bytes 4 backup_ver
          ++ le_bytes 4 current_addr ++ le_bytes 4 backup_addr))
    (Ret (Some (mkVersionInfo current_ver backup_ver current_addr backup_addr)))
    [request GET_VERSION []].
Proof.
  intros Ha Hb Hc Hd.
  set (data := le_bytes 4 current_ver ++ le_bytes 4 backup_ver
                 ++ le_bytes 4 current_addr ++ le_bytes 4 backup_addr).
  replace (mkVersionInfo current_ver backup_ver current_addr backup_addr)
    with (version_info_of data).
  - apply get_version_info_runs. subst data.
    rewrite !len_app, !len_le_bytes. reflexivity.
  - unfold version_info_of. subst data.
    rewrite unpack_IIII_app by apply len_le_bytes.
    rewrite !le_value_le_bytes by (change (256 ^ Z.of_nat 4) with (2 ^ 32); assumption).
    reflexivity.
Qed.

Lemma get_version_info_decodes_witness :
  exchange get_version_info
    (reply VERSION_INFO
       (le_bytes 4 3 ++ le_bytes 4 2 ++ le_bytes 4 0x300000 ++ le_bytes 4 0x200000))
    (Ret (Some (mkVersionInfo 3 2 0x300000 0x200000)))
    [request GET_VERSION []].
Proof. apply (get_version_info_decodes 3 2 0x300000 0x200000); lia. Defined.

(** X5 -- [get_version_info] accepts nothing else.  An answer that is not
    [VERSION_INFO], or whose payload is not 16 bytes long, makes it return
    [None]; the [GET_VERSION] packet has been written all the same. *)
Theorem get_version_info_rejects (r : Response) (data : list Z) :
  r <> VERSION_INFO \/ len data <> 16 ->
  exchange get_version_info (reply r data) (Ret None) [request GET_VERSION []].
Proof.
  intros H. eexists. intros rest txs c. unfold get_version_info.
  unfold bind at 1. rewrite send_command_ok by (reflexivity || (cbn; lia)).
  cbn [negb]. unfold bind at 1. rewrite read_response_reply.
  cbv beta iota zeta. cbn [Response_.equals].
  assert (Hcond : negb (Response_.eqb r VERSION_INFO) || negb (len data =? 16)
                  = true).
  { destruct H as [Hr|Hl].
    - destruct r; try reflexivity. congruence.
    - rewrite (proj2 (Z.eqb_neq _ _) Hl). apply orb_true_r. }
  rewrite Hcond. unfold bind at 1. rewrite print_eq. unfold ret.
  rewrite <- !app_assoc. cbn [app]. reflexivity.
Qed.

Lemma get_version_info_rejects_witness :
  exchange get_version_info (reply ACK []) (Ret None) [request GET_VERSION []].
Proof. apply (get_version_info_rejects ACK []). left. discriminate. Defined.

(** ** The handshake *)

Lemma read_response_timeout rest txs c :
  read_response (mkWorld true ([RxTimeout] ++ rest) txs [] c)
  = (Ret (None, []), mkWorld true rest txs [] (c ++ [header_failure_line])).
Proof.
  apply (read_response_short_header (RxTimeout :: rest) txs [] c [] rest);
    [reflexivity|discriminate].
Qed.

Lemma ready_loop_stray attempt attempts input1 input r s :
  stray input1 ->
  exchange (ready_loop attempts) input r s ->
  exchange (ready_loop (attempt :: attempts)) (input1 ++ input) r s.
Proof.
  intros Hs [lines H].
  destruct Hs; eexists; intros rest txs c; cbn [ready_loop];
    (unfold bind at 1; rewrite <- app_assoc;
     first [rewrite read_response_reply | rewrite read_response_timeout]);
    cbv beta iota zeta;
    cbn [Response_.equals Response_.eqb Response_.value Z.eqb Pos.eqb];
    (unfold bind at 1; rewrite print_eq); rewrite H;
    rewrite <- !app_assoc; cbn [app]; reflexivity.
Qed.

Lemma ready_loop_nack attempt attempts :
  exchange (ready_loop (attempt :: attempts)) (reply NACK []) (Ret false) [].
Proof.
  eexists. intros rest txs c. cbn [ready_loop].
  unfold bind at 1. rewrite read_response_reply. cbv beta iota zeta.
  cbn [Response_.equals Response_.eqb Response_.value Z.eqb Pos.eqb].
  unfold bind at 1. rewrite print_eq. unfold ret.
  rewrite <- !app_assoc, app_nil_r. reflexivity.
Qed.

Lemma ready_loop_gives_up :
  exchange (ready_loop []) [] (Ret false) [].
Proof.
  eexists. intros rest txs c. cbn [ready_loop].
  unfold bind at 1. rewrite print_eq. unfold ret. rewrite app_nil_r.
  reflexivity.
Qed.

Lemma session_not_ready filepath file_data new_version vdata input :
  len vdata = 16 -> 0 <= new_version < 2 ^ 32 -> len file_data < 2 ^ 32 ->
  exchange (ready_loop (range max_retries)) input (Ret false) [] ->
  exchange (send_update_file filepath (file_bytes file_data) new_version)
    (reply VERSION_INFO vdata ++ input) (Ret false)
    (opening new_version vdata (len file_data)).
Proof.
  intros Hv Hnv Hs H.
  change (opening new_version vdata (len file_data))
    with ([request GET_VERSION []]
            ++ [request INIT_UPDATE
                  (init_data new_version
                     (target_address (version_info_of vdata)) (len file_data))]).
  apply send_update_file_runs with (vi := version_info_of vdata).
  - apply get_version_info_runs, Hv.
  - apply transfer_file_not_ready;
      [exact Hnv|apply target_address_u32|apply size_is_u32, Hs|exact H].
Qed.

(** X6 -- The handshake has three attempts.  A read that times out and a
    response other than [READY], [ERROR] and [NACK] each use up one
    attempt: after two of them [READY] is still accepted, after three the
    session returns [False], having written [GET_VERSION] and
    [INIT_UPDATE] and no [ABORT_UPDATE]. *)
Theorem handshake_retry_budget filepath file_data new_version vdata
    input1 input2 input3 :
  stray input1 -> stray input2 -> stray input3 ->
  len vdata = 16 -> 0 <= new_version < 2 ^ 32 -> len file_data < 2 ^ 32 ->
  exchange (ready_loop (range max_retries))
           (input1 ++ input2 ++ reply READY []) (Ret true) [] /\
  exchange (send_update_file filepath (file_bytes file_data) new_version)
    (reply VERSION_INFO vdata ++ input1 ++ input2 ++ input3) (Ret false)
    (opening new_version vdata (len file_data)) /\
  count_command ABORT_UPDATE (opening new_version vdata (len file_data)) = 0%nat.
Proof.
  intros H1 H2 H3 Hv Hnv Hs. rewrite range_max_retries. split; [|split].
  - apply ready_loop_stray; [exact H1|].
    apply ready_loop_stray; [exact H2|]. apply ready_loop_ready.
  - apply session_not_ready; [exact Hv|exact Hnv|exact Hs|].
    rewrite range_max_retries.
    apply ready_loop_stray; [exact H1|].
    apply ready_loop_stray; [exact H2|].
    rewrite <- (app_nil_r input3).
    apply ready_loop_stray; [exact H3|]. apply ready_loop_gives_up.
  - reflexivity.
Qed.

Lemma handshake_retry_budget_witness :
  exchange (send_update_file "fw.bin" (file_bytes sample_image) 1)
    (reply VERSION_INFO sample_version_data
       ++ [RxTimeout] ++ reply ACK [] ++ [RxTimeout])
    (Ret false)
    (opening 1 sample_version_data (len sample_image)).
Proof.
  refine (proj1 (proj2 (handshake_retry_budget "fw.bin"%string sample_image 1
                          sample_version_data [RxTimeout] (reply ACK [])
                          [RxTimeout] _ _ _ _ _ _))).
  - constructor.
  - constructor.
  - constructor.
  - reflexivity.
  - lia.
  - vm_compute. reflexivity.
Defined.

(** X7 -- [NACK] to [INIT_UPDATE] is final.  The session returns [False]
    after that one answer, without a second attempt; it has written
    [GET_VERSION] and [INIT_UPDATE] only. *)
Theorem init_nack_is_terminal filepath file_data new_version vdata :
  len vdata = 16 -> 0 <= new_version < 2 ^ 32 -> len file_data < 2 ^ 32 ->
  exchange (send_update_file filepath (file_bytes file_data) new_version)
    (reply VERSION_INFO vdata ++ reply NACK []) (Ret false)
    (opening new_version vdata (len file_data)).
Proof.
  intros Hv Hnv Hs. apply session_not_ready; [exact Hv|exact Hnv|exact Hs|].
  rewrite range_max_retries. apply ready_loop_nack.
Qed.

Lemma init_nack_is_terminal_witness :
  exchange (send_update_file "fw.bin" (file_bytes sample_image) 1)
    (reply VERSION_INFO sample_version_data ++ reply NACK []) (Ret false)
    (opening 1 sample_version_data (len sample_image)).
Proof.
  refine (init_nack_is_terminal "fw.bin"%string sample_image 1
            sample_version_data _ _ _).
  - reflexivity.
  - lia.
  - vm_compute. reflexivity.
Defined.

(** ** The ends of a session *)

(** X8 -- Only [ACK] to [FINISH_UPDATE] completes the update.  When every
    packet has been acknowledged, the session returns [True] for the answer
    [ACK] to [FINISH_UPDATE] and [False] for every other response; in both
    cases [FINISH_UPDATE] is the last packet written and no [ABORT_UPDATE]
    is sent. *)
Theorem finish_decides filepath file_data new_version vdata (r : Response) :
  is_bytes file_data = true -> len file_data <= 16 * 65536 ->
  len vdata = 16 -> 0 <= new_version < 2 ^ 32 ->
  let total := total_packets (len file_data) in
  let sent :=
    opening new_version vdata (len file_data)
      ++ map (packet_frame file_data) (range total)
      ++ [request FINISH_UPDATE []] in
  exchange (send_update_file filepath (file_bytes file_data) new_version)
    (handshake vdata ++ flat_map (fun _ : Z => reply ACK []) (range total)
       ++ reply r [])
    (Ret (Response_.eqb r ACK)) sent /\
  (Response_.eqb r ACK = true <-> r = ACK) /\
  count_command ABORT_UPDATE sent = 0%nat.
Proof.
  intros Hb Hn Hv Hnv total sent. split; [|split].
  - apply session_finishes; [exact Hv|exact Hnv|lia| |].
    + apply packet_loop_all_acked; [exact Hb|].
      apply range_bounds.
      pose proof (total_packets_ceil (len file_data) (len_nonneg _)). lia.
    + apply finish_update_response.
  - destruct r; split; intros H; try reflexivity; discriminate.
  - subst sent. rewrite !count_command_app.
    rewrite count_command_packets by discriminate. reflexivity.
Qed.

Lemma finish_decides_witness :
  exchange (send_update_file "fw.bin" (file_bytes sample_image) 1)
    (handshake sample_version_data
       ++ flat_map (fun _ : Z => reply ACK [])
            (range (total_packets (len sample_image)))
       ++ reply NACK [])
    (Ret (Response_.eqb NACK ACK))
    (opening 1 sample_version_data (len sample_image)
       ++ map (packet_frame sample_image)
            (range (total_packets (len sample_image)))
       ++ [request FINISH_UPDATE []]).
Proof.
  refine (proj1 (finish_decides "fw.bin"%string sample_image 1
                   sample_version_data NACK _ _ _ _)).
  - reflexivity.
  - vm_compute. discriminate.
  - reflexivity.
  - lia.
Defined.

(** X9 -- Without a readable file nothing is transferred.  For a path that
    does not exist [send_update_file] returns [False] at once, in every
    state, reading and writing nothing.  For a file that cannot be read it
    returns [False] after the version query: [GET_VERSION] is the only
    packet written. *)
Theorem no_file_no_transfer filepath new_version :
  (forall w,
     send_update_file filepath file_missing new_version w
     = (Ret false,
        mkWorld (port_open w) (rx w) (tx w) (wfaults w)
                (console w ++ [("File not found: " ++ filepath)%string]))) /\
  (forall msg vdata,
     len vdata = 16 ->
     exchange (send_update_file filepath (file_unreadable msg) new_version)
       (reply VERSION_INFO vdata) (Ret false) [request GET_VERSION []]).
Proof.
  split.
  - intros w. reflexivity.
  - intros msg vdata Hv.
    destruct (get_version_info_runs vdata Hv) as [l0 H0].
    eexists. intros rest txs c. unfold send_update_file.
    unfold bind at 1. rewrite H0.
    unfold bind at 1. rewrite print_eq.
    unfold bind at 1. rewrite print_eq.
    unfold bind at 1. rewrite print_eq.
    unfold bind at 1. rewrite print_eq. unfold ret.
    rewrite <- !app_assoc. cbn [app]. reflexivity.
Qed.

Lemma no_file_no_transfer_witness :
  exchange (send_update_file "fw.bin" (file_unreadable "Permission denied") 1)
    (reply VERSION_INFO sample_version_data) (Ret false)
    [request GET_VERSION []].
Proof.
  refine (proj2 (no_file_no_transfer "fw.bin"%string 1)
            "Permission denied"%string sample_version_data _).
  reflexivity.
Defined.

Lemma pack_I_overflow v : ~ 0 <= v < 2 ^ 32 ->
  exists msg, pack_I v = Raise (struct_error msg).
Proof.
  intros H. unfold pack_I, pack_field.
  replace ((0 <=? v) && (v <? 256 ^ Z.of_nat 4)) with false;
    [eexists; reflexivity|].
  symmetry. apply andb_false_iff.
  destruct (Z.leb_spec 0 v); [right|left; reflexivity].
  apply Z.ltb_ge. change (256 ^ Z.of_nat 4) with (2 ^ 32). lia.
Qed.

(** X10 -- A version number that does not fit 32 bits stops the session
    with an exception.  [struct.pack('<III', ...)] raises for a version
    below 0 or above [2^32 - 1], and nothing catches it: the session has
    queried the version and written nothing else, no [INIT_UPDATE]. *)
Theorem version_out_of_range filepath file_data new_version vdata :
  ~ 0 <= new_version < 2 ^ 32 -> len vdata = 16 ->
  exists msg,
    exchange (send_update_file filepath (file_bytes file_data) new_version)
      (reply VERSION_INFO vdata) (Raise (struct_error msg))
      [request GET_VERSION []].
Proof.
  intros Hnv Hv.
  destruct (get_version_info_runs vdata Hv) as [l0 H0].
  destruct (pack_I_overflow new_version Hnv) as [msg Hm].
  exists msg. eexists. intros rest txs c. unfold send_update_file.
  unfold bind at 1. rewrite H0.
  unfold bind at 1. rewrite print_eq.
  unfold bind at 1. rewrite print_eq.
  unfold bind at 1. rewrite print_eq.
  unfold transfer_file. unfold bind at 1. rewrite print_eq.
  unfold bind at 1, lift at 1, pack_III. rewrite Hm. cbn [result_bind].
  rewrite <- !app_assoc. cbn [app]. reflexivity.
Qed.

Lemma version_out_of_range_witness :
  exists msg,
    exchange (send_update_file "fw.bin" (file_bytes sample_image) (-1))
      (reply VERSION_INFO sample_version_data) (Raise (struct_error msg))
      [request GET_VERSION []].
Proof.
  refine (version_out_of_range "fw.bin"%string sample_image (-1)
            sample_version_data _ _).
  - lia.
  - reflexivity.
Defined.

(** ** Attempts that fail in the packet loop *)

Lemma retry_loop_failed_attempt packet_num content retry retries input1 input r s :
  len content <= 255 -> is_bytes content = true ->
  failed_attempt input1 ->
  exchange (retry_loop packet_num content retries) input r s ->
  exchange (retry_loop packet_num content (retry :: retries))
           (input1 ++ input) r (request SEND_PACKET content :: s).
Proof.
  intros Hn Hb Hf [lines H].
  destruct Hf; eexists; intros rest txs c; cbn [retry_loop];
    (unfold bind at 1; rewrite send_command_ok by assumption); cbn [negb];
    (unfold bind at 1; rewrite <- app_assoc;
     first [rewrite read_response_reply | rewrite read_response_timeout]);
    cbv beta iota zeta;
    cbn [Response_.equals Response_.eqb Response_.value Z.eqb Pos.eqb];
    (unfold bind at 1; rewrite print_eq); rewrite H;
    rewrite <- !app_assoc; cbn [app]; reflexivity.
Qed.

(** X11 -- The three attempts of a packet are shared by every kind of
    failure.  A timed-out read, [CHECKSUM_ERROR] and an unexpected response
    each use up one attempt and make the host write the same packet again:
    after any two of them [ACK] still carries the transfer on to its end,
    after any three the host writes [ABORT_UPDATE] and the session returns
    [False]. *)
Theorem retry_budget_is_shared filepath file_data new_version vdata
    before k after input1 input2 input3 :
  failed_attempt input1 -> failed_attempt input2 -> failed_attempt input3 ->
  is_bytes file_data = true -> len file_data <= 16 * 65536 ->
  range (total_packets (len file_data)) = before ++ k :: after ->
  len vdata = 16 -> 0 <= new_version < 2 ^ 32 ->
  let frame := packet_frame file_data k in
  let frames := map (packet_frame file_data) in
  let acks := flat_map (fun _ : Z => reply ACK []) in
  let session :=
    send_update_file filepath (file_bytes file_data) new_version in
  exchange session
    (handshake vdata
       ++ (acks before ++ (input1 ++ input2 ++ reply ACK []) ++ acks after)
       ++ reply ACK [])
    (Ret true)
    (opening new_version vdata (len file_data)
       ++ (frames before ++ [frame; frame; frame] ++ frames after)
       ++ [request FINISH_UPDATE []]) /\
  exchange session
    (handshake vdata ++ acks before ++ input1 ++ input2 ++ input3)
    (Ret false)
    (opening new_version vdata (len file_data)
       ++ frames before ++ [frame; frame; frame] ++ [request ABORT_UPDATE []]).
Proof.
  intros H1 H2 H3 Hb Hn Hsplit Hv Hnv frame frames acks session.
  assert (Hall : Forall (fun j => 0 <= j <= 65535)
                        (range (total_packets (len file_data)))).
  { apply range_bounds.
    pose proof (total_packets_ceil (len file_data) (len_nonneg _)). lia. }
  rewrite Hsplit in Hall. apply Forall_app in Hall as [Hbefore Hrest].
  inversion Hrest as [|? ? Hk Hafter]; subst.
  assert (Hlen : len (packet_record file_data k) <= 255)
    by (rewrite packet_record_len by lia; lia).
  assert (Hbytes : is_bytes (packet_record file_data k) = true)
    by (apply packet_record_bytes; assumption).
  split.
  - apply session_finishes;
      [exact Hv|exact Hnv|lia| |apply (finish_update_response ACK)].
    rewrite Hsplit.
    apply packet_loop_reaches; [exact Hb|exact Hbefore|exact Hk| |].
    + rewrite range_max_retries.
      apply retry_loop_failed_attempt; [exact Hlen|exact Hbytes|exact H1|].
      apply retry_loop_failed_attempt; [exact Hlen|exact Hbytes|exact H2|].
      apply retry_loop_ack; assumption.
    + apply packet_loop_all_acked; assumption.
  - apply session_stops with
      (s2 := frames before ++ [frame; frame; frame] ++ [request ABORT_UPDATE []]);
      [exact Hv|exact Hnv|lia| |discriminate].
    rewrite Hsplit.
    apply packet_loop_gives_up; [exact Hb|exact Hbefore|exact Hk|].
    rewrite range_max_retries.
    apply retry_loop_failed_attempt; [exact Hlen|exact Hbytes|exact H1|].
    apply retry_loop_failed_attempt; [exact Hlen|exact Hbytes|exact H2|].
    rewrite <- (app_nil_r input3).
    apply retry_loop_failed_attempt; [exact Hlen|exact Hbytes|exact H3|].
    exists []. apply retry_loop_exhausted.
Qed.

Lemma retry_budget_is_shared_witness :
  let frame := packet_frame sample_image 1 in
  exchange (send_update_file "fw.bin" (file_bytes sample_image) 1)
    (handshake sample_version_data ++ flat_map (fun _ : Z => reply ACK []) [0]
       ++ [RxTimeout] ++ reply READY [] ++ reply CHECKSUM_ERROR [])
    (Ret false)
    (opening 1 sample_version_data (len sample_image)
       ++ map (packet_frame sample_image) [0]
       ++ [frame; frame; frame] ++ [request ABORT_UPDATE []]).
Proof.
  refine (proj2 (retry_budget_is_shared "fw.bin"%string sample_image 1
                   sample_version_data [0] 1 [2]
                   [RxTimeout] (reply READY []) (reply CHECKSUM_ERROR [])
                   _ _ _ _ _ _ _ _)).
  - constructor.
  - constructor.
  - constructor.
  - reflexivity.
  - vm_compute. discriminate.
  - reflexivity.
  - reflexivity.
  - lia.
Defined.

(** ** Writes that fail *)

Lemma packet_frame_built file_data k :
  is_bytes file_data = true -> 0 <= k <= 65535 ->
  build_frame (Command_.value SEND_PACKET) (packet_record file_data k)
  = Ret (packet_frame file_data k).
Proof.
  intros Hb Hk. apply build_frame_wire.
  - apply command_value_byte.
  - rewrite packet_record_len by lia. lia.
  - apply packet_record_bytes; assumption.
Qed.

Lemma read_response_reply_any r data rest txs wf c :
  read_response (mkWorld true (reply r data ++ rest) txs wf c)
  = (Ret (Some r, data),
     mkWorld true rest txs wf (c ++ [received_line (Response_.value r) (len data)])).
Proof.
  unfold reply, wire. rewrite read_response_frame. cbv zeta.
  rewrite xor_bytes_header, Z.eqb_refl, of_value_value. reflexivity.
Qed.

(** X12 -- A send that fails uses up an attempt, and what it has put on
    the line stays there.  A send fails when [write] raises, with the first
    bytes of the frame on the line, or when [flush] raises, with all of it.
    After three such sends of a packet the host gives the packet up without
    having read anything, writes [ABORT_UPDATE] and leaves the packet loop
    with [False]: the device has then been sent up to three beginnings of
    the frame.  After a single one, the next attempt sends the whole frame
    again behind what the failed one left, and [ACK] completes the packet. *)
Theorem failed_writes_use_up_attempts file_data k more evs txs f1 f2 f3 wf c :
  is_bytes file_data = true -> 0 <= k <= 65535 ->
  let frame := packet_frame file_data k in
  (exists c',
     packet_loop file_data (k :: more)
       (mkWorld true evs txs
          (answers_of f1 ++ answers_of f2 ++ answers_of f3
             ++ Returns :: Returns :: wf) c)
     = (Ret false,
        mkWorld true evs
          (txs ++ [on_line frame f1; on_line frame f2; on_line frame f3;
                   request ABORT_UPDATE []])
          wf c')) /\
  (exists c',
     packet_loop file_data [k]
       (mkWorld true (reply ACK [] ++ evs) txs
          (answers_of f1 ++ Returns :: Returns :: wf) c)
     = (Ret true,
        mkWorld true evs (txs ++ [on_line frame f1; frame]) wf c')).
Proof.
  intros Hb Hk frame.
  pose proof (packet_frame_built file_data k Hb Hk) as Hframe. fold frame in Hframe.
  split.
  - eexists. rewrite packet_loop_cons by assumption.
    rewrite range_max_retries. cbn [retry_loop].
    unfold bind at 1. rewrite (send_command_fails _ _ _ _ _ _ _ _ Hframe).
    cbn [negb].
    unfold bind at 1. rewrite print_eq.
    unfold bind at 1. rewrite (send_command_fails _ _ _ _ _ _ _ _ Hframe).
    cbn [negb].
    unfold bind at 1. rewrite print_eq.
    unfold bind at 1. rewrite (send_command_fails _ _ _ _ _ _ _ _ Hframe).
    cbn [negb].
    unfold bind at 1. rewrite print_eq.
    unfold ret at 1.
    unfold bind at 1. rewrite print_eq.
    unfold bind at 1.
    rewrite (send_command_written ABORT_UPDATE [] (request ABORT_UPDATE []))
      by reflexivity.
    unfold ret. rewrite <- !app_assoc. reflexivity.
  - eexists. rewrite packet_loop_cons by assumption.
    rewrite range_max_retries. cbn [retry_loop].
    unfold bind at 1. rewrite (send_command_fails _ _ _ _ _ _ _ _ Hframe).
    cbn [negb].
    unfold bind at 1. rewrite print_eq.
    unfold bind at 1. rewrite (send_command_written _ _ _ _ _ _ _ Hframe).
    cbn [negb].
    unfold bind at 1. rewrite read_response_reply_any.
    cbv beta iota zeta. cbn [Response_.equals Response_.eqb Response_.value Z.eqb Pos.eqb].
    unfold ret at 1. cbn [packet_loop]. unfold ret.
    rewrite <- !app_assoc. reflexivity.
Qed.

Lemma failed_writes_use_up_attempts_witness :
  let frame := packet_frame sample_image 1 in
  exists c',
    packet_loop sample_image [1]
      (mkWorld true (reply ACK [] ++ []) []
         (answers_of (write_raises 5 "Write timeout") ++ Returns :: Returns :: []) [])
    = (Ret true,
       mkWorld true []
         ([] ++ [on_line frame (write_raises 5 "Write timeout"); frame]) [] c').
Proof.
  refine (proj2 (failed_writes_use_up_attempts sample_image 1 [] [] []
                   (write_raises 5 "Write timeout"%string)
                   (flush_raises "gone"%string) (flush_raises "gone"%string)
                   [] [] _ _)).
  - reflexivity.
  - lia.
Defined.

(** ** Sessions against any device *)

Lemma print_tx line w : tx (snd (print line w)) = tx w.
Proof. reflexivity. Qed.

Ltac conclude :=
  repeat split;
  first [ reflexivity | lia | discriminate | assumption
        | intros _; lia | intros _; discriminate | idtac ].

Lemma retry_loop_any packet_num content frame :
  build_frame (Command_.value SEND_PACKET) content = Ret frame ->
  forall retries w,
  exists b w' pieces,
    retry_loop packet_num content retries w = (Ret b, w') /\
    tx w' = tx w ++ pieces /\
    (List.length pieces <= List.length retries)%nat /\
    Forall (beginning_of frame) pieces /\
    (b = true -> exists failed, pieces = failed ++ [frame]).
Proof.
  intros Hframe. induction retries as [|retry retries IH]; intros w.
  - exists false, w, []. cbn [retry_loop List.length].
    rewrite app_nil_r. split; [reflexivity|]. split; [reflexivity|].
    split; [lia|]. split; [constructor|discriminate].
  - assert (Again : forall piece line w1,
              beginning_of frame piece -> tx w1 = tx w ++ [piece] ->
              exists b w' pieces,
                retry_loop packet_num content retries (snd (print line w1))
                = (Ret b, w') /\
                tx w' = tx w ++ pieces /\
                (List.length pieces <= S (List.length retries))%nat /\
                Forall (beginning_of frame) pieces /\
                (b = true -> exists failed, pieces = failed ++ [frame])).
    { intros piece line w1 Hpiece Htx.
      destruct (IH (snd (print line w1)))
        as (b & w' & pieces & E & Ht & Hn & Hall & Hb).
      exists b, w', (piece :: pieces). split; [exact E|].
      cbn [print snd tx] in Ht. rewrite Ht, Htx, <- app_assoc.
      split; [reflexivity|]. cbn [List.length]. split; [lia|].
      split; [constructor; assumption|].
      intros Hbt. destruct (Hb Hbt) as [failed ->].
      exists (piece :: failed). reflexivity. }
    cbn [retry_loop List.length]. unfold bind at 1.
    destruct (send_command_effect SEND_PACKET content w)
      as (b1 & w1 & E1 & _ & _ & Hsent & Hnot & _).
    rewrite E1. destruct b1; cbn [negb].
    + destruct (Hsent eq_refl) as (_ & frame' & Hf & Htx & _).
      rewrite Hframe in Hf. injection Hf as <-.
      unfold bind at 1.
      destruct (read_response_total w1)
        as (res & w2 & E2 & _ & Htx2 & _ & _ & _).
      rewrite E2. destruct res as [response data]. cbv beta iota zeta.
      rewrite Htx in Htx2.
      destruct (Response_.equals response ACK).
      { exists true, w2, [frame]. split; [reflexivity|].
        split; [exact Htx2|]. cbn [List.length]. split; [lia|].
        split; [repeat constructor; apply beginning_of_whole|].
        intros _. exists []. reflexivity. }
      destruct (Response_.equals response CHECKSUM_ERROR).
      { unfold bind at 1. cbn [print].
        match goal with
        | |- context [mkWorld _ _ _ _ (console w2 ++ [?line])] =>
            exact (Again frame line w2 (beginning_of_whole frame) Htx2)
        end. }
      destruct (Response_.equals response NACK).
      { unfold bind at 1. cbn [print]. unfold ret.
        exists false. eexists. exists [frame]. split; [reflexivity|].
        cbn [tx List.length]. split; [exact Htx2|]. split; [lia|].
        split; [repeat constructor; apply beginning_of_whole|discriminate]. }
      unfold bind at 1. cbn [print].
      match goal with
      | |- context [mkWorld _ _ _ _ (console w2 ++ [?line])] =>
          exact (Again frame line w2 (beginning_of_whole frame) Htx2)
      end.
    + unfold bind at 1. cbn [print].
      destruct (Hnot eq_refl) as [Htx|(frame' & piece & _ & Hf & Hpiece & Htx)].
      * match goal with
        | |- context [mkWorld _ _ _ _ (console w1 ++ [?line])] =>
            destruct (IH (snd (print line w1)))
              as (b & w' & pieces & E & Ht & Hn & Hall & Hb)
        end.
        cbn [print snd tx] in E, Ht. rewrite Htx in Ht.
        exists b, w', pieces. split; [exact E|]. split; [exact Ht|].
        split; [lia|]. split; assumption.
      * rewrite Hframe in Hf. injection Hf as <-.
        match goal with
        | |- context [mkWorld _ _ _ _ (console w1 ++ [?line])] =>
            exact (Again piece line w1 Hpiece Htx)
        end.
Qed.

Lemma packet_loop_any file_data :
  is_bytes file_data = true ->
  forall nums w,
  Forall (fun k => 0 <= k <= 65535) nums ->
  exists b w' sent,
    packet_loop file_data nums w = (Ret b, w') /\
    tx w' = tx w ++ sent /\
    (b = true -> delivered file_data nums sent).
Proof.
  intros Hb. induction nums as [|k nums IH]; intros w Hall.
  - exists true, w, []. cbn [packet_loop]. rewrite app_nil_r.
    split; [reflexivity|]. split; [reflexivity|]. intros _. constructor.
  - inversion Hall as [|? ? Hk Hnums]; subst.
    rewrite packet_loop_cons by assumption.
    destruct (retry_loop_any k _ _ (packet_frame_built file_data k Hb Hk)
                (range max_retries) w)
      as (b1 & w1 & pieces & E1 & Ht1 & Hn & Hpieces & Hb1).
    rewrite E1. rewrite range_max_retries in Hn. cbn [List.length] in Hn.
    destruct b1.
    + destruct (Hb1 eq_refl) as [failed ->].
      rewrite length_app in Hn. cbn [List.length] in Hn.
      apply Forall_app in Hpieces as [Hfailed _].
      destruct (IH w1 Hnums) as (b & w' & sent & E & Ht & Hd).
      exists b, w', (failed ++ packet_frame file_data k :: sent).
      split; [exact E|].
      split; [rewrite Ht, Ht1, <- !app_assoc; reflexivity|].
      intros Hbt. constructor; [lia|exact Hfailed|exact (Hd Hbt)].
    + unfold bind at 1. cbn [print]. unfold bind at 1.
      match goal with
      | |- context [send_command ABORT_UPDATE [] ?w2] =>
          destruct (send_command_effect ABORT_UPDATE [] w2)
            as (b2 & w3 & E2 & _ & _ & Hsent & Hnot & _)
      end.
      rewrite E2. unfold ret. exists false, w3.
      destruct b2.
      * destruct (Hsent eq_refl) as (_ & frame & _ & Ht3 & _).
        exists (pieces ++ [frame]).
        split; [reflexivity|]. cbn [tx] in Ht3.
        split; [rewrite Ht3, Ht1, app_assoc; reflexivity|discriminate].
      * destruct (Hnot eq_refl) as [Ht3|(frame & piece & _ & _ & _ & Ht3)];
          cbn [tx] in Ht3.
        -- exists pieces. split; [reflexivity|].
           split; [rewrite Ht3, Ht1; reflexivity|discriminate].
        -- exists (pieces ++ [piece]). split; [reflexivity|].
           split; [rewrite Ht3, Ht1, app_assoc; reflexivity|discriminate].
Qed.

Lemma ready_loop_any : forall attempts w,
  exists b w', ready_loop attempts w = (Ret b, w') /\ tx w' = tx w.
Proof.
  induction attempts as [|attempt attempts IH]; intros w.
  - cbn [ready_loop]. unfold bind, print, ret. eexists. eexists.
    split; reflexivity.
  - cbn [ready_loop]. unfold bind at 1.
    destruct (read_response_total w)
      as (res & w1 & E1 & _ & Ht1 & _ & _ & _).
    rewrite E1. destruct res as [response data]. cbv beta iota zeta.
    destruct (Response_.equals response READY).
    { unfold bind, print, ret. eexists. eexists. split; [reflexivity|exact Ht1]. }
    destruct (Response_.equals response ERROR).
    { destruct (1 <=? len data); unfold bind, print, ret; eexists; eexists;
        (split; [reflexivity|exact Ht1]). }
    destruct (Response_.equals response NACK).
    { unfold bind, print, ret. eexists. eexists. split; [reflexivity|exact Ht1]. }
    unfold bind at 1.
    match goal with
    | |- context [print ?line w1] =>
        destruct (IH (snd (print line w1))) as (b & w' & E & Ht)
    end.
    cbn [print snd] in E, Ht |- *. rewrite E. exists b, w'.
    split; [reflexivity|]. cbn [tx] in Ht. rewrite Ht. exact Ht1.
Qed.

Lemma get_version_info_any w :
  exists o w',
    get_version_info w = (Ret o, w') /\
    (o <> None -> tx w' = tx w ++ [request GET_VERSION []]).
Proof.
  unfold get_version_info. unfold bind at 1.
  destruct (send_command_effect GET_VERSION [] w)
    as (b1 & w1 & E1 & _ & _ & Hsent & _).
  rewrite E1. destruct b1; cbn [negb].
  - destruct (Hsent eq_refl) as (_ & frame & Hf & Ht1 & _).
    change (build_frame (Command_.value GET_VERSION) [])
      with (Ret (request GET_VERSION [])) in Hf.
    injection Hf as <-.
    unfold bind at 1.
    destruct (read_response_total w1)
      as (res & w2 & E2 & _ & Ht2 & _ & _ & _).
    rewrite E2. destruct res as [response data]. cbv beta iota zeta.
    destruct (negb (Response_.equals response VERSION_INFO)
              || negb (len data =? 16)).
    + unfold bind, print, ret. eexists. eexists. split; [reflexivity|].
      intros H. congruence.
    + destruct (unpack_IIII data) as [[[a b] c] d]. unfold ret.
      eexists. eexists. split; [reflexivity|]. intros _.
      rewrite Ht2. exact Ht1.
  - unfold ret. exists None, w1. split; [reflexivity|]. intros H. congruence.
Qed.

Lemma finish_update_any w :
  exists b w',
    finish_update w = (Ret b, w') /\
    (b = true -> tx w' = tx w ++ [request FINISH_UPDATE []]).
Proof.
  unfold finish_update. unfold bind at 1.
  destruct (send_command_effect FINISH_UPDATE [] w)
    as (b1 & w1 & E1 & _ & _ & Hsent & _).
  rewrite E1. destruct b1; cbn [negb].
  - destruct (Hsent eq_refl) as (_ & frame & Hf & Ht1 & _).
    change (build_frame (Command_.value FINISH_UPDATE) [])
      with (Ret (request FINISH_UPDATE [])) in Hf.
    injection Hf as <-.
    unfold bind at 1.
    destruct (read_response_total w1)
      as (res & w2 & E2 & _ & Ht2 & _ & _ & _).
    rewrite E2. destruct res as [response data]. cbv beta iota zeta.
    destruct (negb (Response_.equals response ACK)).
    + unfold bind, print, ret. eexists. eexists. split; [reflexivity|].
      discriminate.
    + unfold bind, print, ret. eexists. eexists. split; [reflexivity|].
      intros _. cbn [tx]. rewrite Ht2. exact Ht1.
  - unfold bind, print, ret. eexists. eexists. split; [reflexivity|].
    discriminate.
Qed.

Lemma transfer_file_any new_version target file_data :
  u32 new_version -> u32 target ->
  is_bytes file_data = true -> len file_data <= 16 * 65536 ->
  forall w,
  exists b w',
    transfer_file new_version target file_data w = (Ret b, w') /\
    (b = true ->
     exists sent,
       tx w' = tx w
                 ++ request INIT_UPDATE
                      (init_data new_version target (len file_data))
                 :: sent ++ [request FINISH_UPDATE []] /\
       delivered file_data (range (total_packets (len file_data))) sent).
Proof.
  intros Hv Ht Hb Hn w.
  assert (Hs : u32 (len file_data))
    by (pose proof (len_nonneg file_data); split; lia).
  unfold transfer_file. unfold bind at 1. cbn [print].
  unfold bind at 1, lift at 1. rewrite (pack_III_ok _ _ _ Hv Ht Hs).
  unfold bind at 1.
  match goal with
  | |- context [send_command INIT_UPDATE ?d ?w0] =>
      destruct (send_command_effect INIT_UPDATE d w0)
        as (b1 & w1 & E1 & _ & _ & Hsent & _)
  end.
  rewrite E1. destruct b1; cbn [negb].
  2:{ unfold bind, print, ret. eexists. eexists. split; [reflexivity|].
      discriminate. }
  destruct (Hsent eq_refl) as (_ & frame & Hf & Ht1 & _).
  rewrite build_frame_wire in Hf;
    [|apply command_value_byte|rewrite init_data_len; lia|apply init_data_bytes].
  injection Hf as <-. cbn [tx] in Ht1.
  unfold bind at 1. cbn [print]. unfold bind at 1.
  match goal with
  | |- context [ready_loop ?l ?w0] =>
      destruct (ready_loop_any l w0) as (b2 & w2 & E2 & Ht2)
  end.
  rewrite E2. cbn [tx] in Ht2. destruct b2; cbn [negb].
  2:{ unfold ret. eexists. eexists. split; [reflexivity|]. discriminate. }
  unfold bind at 1. cbn [print]. unfold bind at 1.
  match goal with
  | |- context [packet_loop file_data ?l ?w0] =>
      destruct (packet_loop_any file_data Hb l w0) as (b3 & w3 & sent & E3 & Ht3 & Hd)
  end.
  { apply range_bounds.
    pose proof (total_packets_ceil (len file_data) (len_nonneg _)). lia. }
  rewrite E3. cbn [tx] in Ht3. destruct b3; cbn [negb].
  2:{ unfold ret. eexists. eexists. split; [reflexivity|]. discriminate. }
  unfold bind at 1. cbn [print].
  match goal with
  | |- context [finish_update ?w0] =>
      destruct (finish_update_any w0) as (b4 & w4 & E4 & Ht4)
  end.
  rewrite E4. cbn [tx] in Ht4. exists b4, w4. split; [reflexivity|].
  intros Hb4. exists sent. split; [|exact (Hd eq_refl)].
  rewrite (Ht4 Hb4), Ht3, Ht2, Ht1, <- !app_assoc. reflexivity.
Qed.

Lemma beginning_not_counted file_data k cmd piece :
  cmd <> SEND_PACKET -> beginning_of (packet_frame file_data k) piece ->
  count_command cmd [piece] = 0%nat.
Proof.
  intros Hc [n ->]. unfold packet_frame, request, wire.
  destruct n; cbn [firstn]; destruct cmd; try reflexivity; congruence.
Qed.

Lemma delivered_no_other_command file_data cmd nums sent :
  cmd <> SEND_PACKET -> delivered file_data nums sent ->
  count_command cmd sent = 0%nat.
Proof.
  intros Hc. induction 1 as [|k failed nums sent Hn Hall _ IH]; [reflexivity|].
  rewrite count_command_app.
  change (packet_frame file_data k :: sent)
    with ([packet_frame file_data k] ++ sent).
  rewrite count_command_app, IH.
  rewrite (beginning_not_counted file_data k cmd _ Hc (beginning_of_whole _)).
  clear Hn. induction Hall as [|piece failed Hpiece _ IHf]; [reflexivity|].
  change (piece :: failed) with ([piece] ++ failed).
  rewrite count_command_app.
  rewrite (beginning_not_counted file_data k cmd _ Hc Hpiece).
  exact IHf.
Qed.

(** X13 -- Whatever the device and the port do, a session within the limits
    ends with [True] or [False], and [True] means the whole image went out.
    For a version that fits 32 bits and an image of at most 65536 packets,
    [send_update_file] never raises: in every state of the port, for every
    sequence of bytes, timeouts and faults on the line, for every write and
    flush that raises.  When it returns [True], what it has put on the line
    is [GET_VERSION], [INIT_UPDATE] for one of the two banks, then every
    packet of the image in order, then [FINISH_UPDATE] -- and no
    [ABORT_UPDATE].  Each packet is there one to three times: at most two
    attempts that failed, of which one whose [write] raised has left only
    the first bytes of the frame, and then the frame that was
    acknowledged. *)
Theorem session_outcome filepath (f : file) new_version w :
  0 <= new_version < 2 ^ 32 ->
  (forall file_data, f = file_bytes file_data ->
     is_bytes file_data = true /\ len file_data <= 16 * 65536) ->
  exists b w',
    send_update_file filepath f new_version w = (Ret b, w') /\
    (b = true ->
     exists file_data target sent,
       f = file_bytes file_data /\
       (target = version_1_address \/ target = version_2_address) /\
       tx w' = tx w
                 ++ request GET_VERSION []
                 :: request INIT_UPDATE
                      (init_data new_version target (len file_data))
                 :: sent ++ [request FINISH_UPDATE []] /\
       delivered file_data (range (total_packets (len file_data))) sent /\
       count_command ABORT_UPDATE sent = 0%nat).
Proof.
  intros Hv Hf. unfold send_update_file.
  destruct f as [|msg|file_data].
  - unfold bind, print, ret. eexists. eexists. split; [reflexivity|].
    discriminate.
  - unfold bind at 1.
    destruct (get_version_info_any w) as (o & w1 & E1 & _). rewrite E1.
    destruct o as [vi|]; unfold bind, print, ret; eexists; eexists;
      (split; [reflexivity|discriminate]).
  - destruct (Hf file_data eq_refl) as [Hb Hn].
    unfold bind at 1.
    destruct (get_version_info_any w) as (o & w1 & E1 & Ht1). rewrite E1.
    destruct o as [vi|].
    2:{ unfold bind, print, ret. eexists. eexists. split; [reflexivity|].
        discriminate. }
    specialize (Ht1 ltac:(discriminate)).
    unfold bind at 1. cbn [print]. unfold bind at 1. cbn [print].
    unfold bind at 1. cbn [print].
    match goal with
    | |- context [transfer_file new_version ?t file_data ?w0] =>
        destruct (transfer_file_any new_version t file_data Hv
                    (target_address_u32 vi) Hb Hn w0) as (b & w' & E & Ht)
    end.
    rewrite E. cbn [tx] in Ht. exists b, w'. split; [reflexivity|].
    intros Hbt. destruct (Ht Hbt) as (sent & Htx & Hd).
    exists file_data, (target_address vi), sent.
    split; [reflexivity|]. split; [apply target_address_cases|].
    split; [rewrite Htx, Ht1, <- app_assoc; reflexivity|].
    split; [exact Hd|].
    apply (delivered_no_other_command file_data ABORT_UPDATE _ _
             ltac:(discriminate) Hd).
Qed.

Lemma session_outcome_witness :
  exists b w',
    send_update_file "fw.bin" (file_bytes sample_image) 1
      (mkWorld true [RxTimeout; RxByte 7; RxFault "unplugged"] [] [Fails 3 "busy"]%string [])
    = (Ret b, w') /\
    (b = true ->
     exists file_data target sent,
       file_bytes sample_image = file_bytes file_data /\
       (target = version_1_address \/ target = version_2_address) /\
       tx w' = []
                 ++ request GET_VERSION []
                 :: request INIT_UPDATE (init_data 1 target (len file_data))
                 :: sent ++ [request FINISH_UPDATE []] /\
       delivered file_data (range (total_packets (len file_data))) sent /\
       count_command ABORT_UPDATE sent = 0%nat).
Proof.
  refine (session_outcome "fw.bin"%string (file_bytes sample_image) 1
            (mkWorld true [RxTimeout; RxByte 7; RxFault "unplugged"] []
                     [Fails 3 "busy"]%string []) _ _).
  - lia.
  - intros file_data E. injection E as <-. split; [reflexivity|].
    vm_compute. discriminate.
Defined.

(** ** The two checksums of a packet *)




(** ** [main] and [disconnect] *)

Lemma disconnect_closes w :
  exists w', disconnect w = (Ret tt, w') /\ port_open w' = false /\
             tx w' = tx w /\ rx w' = rx w.
Proof.
  unfold disconnect, bind, get_port_open, serial_close, print, ret.
  destruct (port_open w) eqn:Ho; eexists; (split; [reflexivity|]);
    cbn [port_open tx rx]; repeat split; exact Ho.
Qed.

Lemma try_finally_disconnect {A : Type} (m : M A) w :
  exists r w1 w',
    m w = (r, w1) /\ try_finally m disconnect w = (r, w') /\
    port_open w' = false /\ tx w' = tx w1 /\ rx w' = rx w1.
Proof.
  unfold try_finally. destruct (m w) as [r w1].
  destruct (disconnect_closes w1) as (w' & E & Ho & Ht & Hr).
  exists r, w1, w'. rewrite E. repeat split; assumption.
Qed.

Lemma connect_succeeds port w :
  connect port (mkStartup None None None) w
  = (Ret true,
     mkWorld true (rx w) (tx w) (wfaults w)
             (console w ++ [("Connected to ESP32 on " ++ port)%string])).
Proof. reflexivity. Qed.

Lemma connect_open_fails port msg reset_input reset_output w :
  connect port (mkStartup (Some msg) reset_input reset_output) w
  = (Ret false,
     mkWorld (port_open w) (rx w) (tx w) (wfaults w)
             (console w ++ [("Connection failed: " ++ msg)%string])).
Proof. reflexivity. Qed.

Lemma connect_reset_fails port reset_input reset_output w :
  reset_input <> None \/ reset_output <> None ->
  exists msg,
    connect port (mkStartup None reset_input reset_output) w
    = (Ret false,
       mkWorld true (rx w) (tx w) (wfaults w)
               (console w ++ [("Connection failed: " ++ msg)%string])).
Proof.
  intros H. destruct reset_input as [msg|].
  - exists msg. reflexivity.
  - destruct reset_output as [msg|]; [|destruct H; congruence].
    exists msg. reflexivity.
Qed.

(** X15 -- Where [main] leaves the port.  Started with the port not yet
    open, [main] ends with the port closed when [serial.Serial] raises (the
    port was never opened) and on every path once [connect] has returned
    [True]: when the body returns an exit code, and when the update raises
    an exception that nothing catches (the [finally] clause).  One path
    leaves the port open: when a buffer reset raises inside [connect], the
    port is open by then, [connect] returns [False], and [main] returns 1
    before its [try], without [disconnect]; nothing has been read or
    written by then. *)
Theorem main_port_at_exit args startup files w :
  port_open w = false ->
  exists r w',
    main args startup files w = (r, w') /\
    (port_open w' = true <->
     open_answer startup = None /\
     (reset_input_answer startup <> None
      \/ reset_output_answer startup <> None)) /\
    (port_open w' = true -> r = Ret 1 /\ tx w' = tx w /\ rx w' = rx w).
Proof.
  intros Hclosed. unfold main. unfold bind at 1.
  destruct startup as [opening reset_input reset_output].
  cbn [open_answer reset_input_answer reset_output_answer].
  destruct opening as [msg|].
  - rewrite connect_open_fails. cbn [negb]. unfold ret.
    eexists. eexists. split; [reflexivity|]. cbn [port_open tx rx].
    rewrite Hclosed. split; [|discriminate].
    split; [discriminate|]. intros [H _]. discriminate.
  - destruct reset_input as [msg_in|].
    + destruct (connect_reset_fails (port args) (Some msg_in) reset_output w)
        as [msg E]; [left; discriminate|].
      rewrite E. cbn [negb]. unfold ret.
      eexists. eexists. split; [reflexivity|]. cbn [port_open tx rx].
      split; [|intros _; repeat split].
      split; [|reflexivity]. intros _. split; [reflexivity|].
      left. discriminate.
    + destruct reset_output as [msg_out|].
      * destruct (connect_reset_fails (port args) None (Some msg_out) w)
          as [msg E]; [right; discriminate|].
        rewrite E. cbn [negb]. unfold ret.
        eexists. eexists. split; [reflexivity|]. cbn [port_open tx rx].
        split; [|intros _; repeat split].
        split; [|reflexivity]. intros _. split; [reflexivity|].
        right. discriminate.
      * rewrite connect_succeeds. cbn [negb]. unfold bind at 1.
        match goal with
        | |- context [try_finally ?m disconnect ?w0] =>
            destruct (try_finally_disconnect m w0)
              as (r & w1 & w' & _ & E & Ho & _)
        end.
        rewrite E.
        assert (Hno : port_open w' = true <->
                      @None string = None /\
                      (@None string <> None \/ @None string <> None)).
        { rewrite Ho. split; [discriminate|]. intros [_ [H|H]]; congruence. }
        destruct r as [[code|]|e]; unfold ret; eexists; eexists;
          (split; [reflexivity|]); (split; [exact Hno|]);
          rewrite Ho; discriminate.
Qed.

Lemma main_port_at_exit_witness :
  exists r w',
    main (mkArgs "COM5" 115200 (Some "fw.bin") (Some 1) false)%string
         (mkStartup None (Some "device gone"%string) None)
         (fun _ => file_bytes sample_image)
         (mkWorld false (reply VERSION_INFO sample_version_data) [] [] [])
    = (r, w') /\
    (port_open w' = true <->
     open_answer (mkStartup None (Some "device gone"%string) None) = None /\
     (reset_input_answer (mkStartup None (Some "device gone"%string) None)
      <> None
      \/ reset_output_answer (mkStartup None (Some "device gone"%string) None)
         <> None)) /\
    (port_open w' = true ->
     r = Ret 1 /\
     tx w' = tx (mkWorld false (reply VERSION_INFO sample_version_data) [] [] []) /\
     rx w' = rx (mkWorld false (reply VERSION_INFO sample_version_data) [] [] [])).
Proof.
  refine (main_port_at_exit
            (mkArgs "COM5" 115200 (Some "fw.bin") (Some 1) false)%string
            (mkStartup None (Some "device gone"%string) None)
            (fun _ => file_bytes sample_image)
            (mkWorld false (reply VERSION_INFO sample_version_data) [] [] []) _).
  reflexivity.
Defined.

(** X16 -- Version 0 is no version.  [main] tests [args.file and
    args.version]; with [--version 0] (or an empty path) and without
    [--info], when the port starts up, it connects, prints the usage line,
    disconnects and exits with code 0: nothing is written to the device and
    nothing is read. *)
Theorem version_zero_does_nothing args files w :
  info args = false ->
  version_arg args = Some 0 \/ file_arg args = Some EmptyString ->
  port_open w = false ->
  exists w',
    main args (mkStartup None None None) files w = (Ret 0, w') /\
    tx w' = tx w /\ rx w' = rx w /\ port_open w' = false /\
    console w'
    = console w
        ++ [("Connected to ESP32 on " ++ port args)%string;
            "Use --info to get version info, or --file and --version to perform update"%string;
            "Disconnected from ESP32"%string].
Proof.
  intros Hinfo Hzero Hclosed.
  assert (Hreq : update_requested args = None).
  { unfold update_requested.
    destruct (file_arg args) as [path|]; [|reflexivity].
    destruct (version_arg args) as [version|]; [|reflexivity].
    destruct Hzero as [E|E]; injection E as ->; [|reflexivity].
    rewrite orb_true_r. reflexivity. }
  unfold main. unfold bind at 1. rewrite connect_succeeds.
  unfold try_finally, main_body, disconnect, serial_close, get_port_open.
  rewrite Hinfo, Hreq. unfold bind, print, ret.
  cbn [negb port_open rx tx wfaults console].
  eexists. split; [reflexivity|]. cbn [port_open rx tx wfaults console].
  rewrite <- !app_assoc. repeat split.
Qed.

Lemma version_zero_does_nothing_witness :
  exists w',
    main (mkArgs "COM5" 115200 (Some "fw.bin") (Some 0) false)%string
         (mkStartup None None None)
         (fun _ => file_bytes sample_image) (mkWorld false [] [] [] [])
    = (Ret 0, w') /\
    tx w' = [] /\ rx w' = [] /\ port_open w' = false /\
    console w'
    = [] ++ [("Connected to ESP32 on " ++ "COM5")%string;
             "Use --info to get version info, or --file and --version to perform update"%string;
             "Disconnected from ESP32"%string].
Proof.
  refine (version_zero_does_nothing
            (mkArgs "COM5" 115200 (Some "fw.bin") (Some 0) false)%string
            (fun _ => file_bytes sample_image) (mkWorld false [] [] [] [])
            _ _ _).
  - reflexivity.
  - left. reflexivity.
  - reflexivity.
Defined.

(** ** The test files of [file_creator.py] *)




(** X18 -- A payload of more than 255 bytes is refused.  [send_command]
    then returns [False] (the error of [struct.pack] is caught) and writes
    nothing, also on an open port. *)
Theorem oversized_payload_is_refused cmd data w :
  255 < len data ->
  exists w', send_command cmd data w = (Ret false, w') /\ tx w' = tx w.
Proof.
  intros Hn.
  destruct (send_command_effect cmd data w)
    as (b & w' & E & _ & _ & _ & _ & Hrefused).
  destruct Hrefused as (-> & Htx & _).
  - right. unfold build_frame, pack_BB.
    rewrite (pack_B_byte _ (command_value_byte cmd)).
    cbn [result_bind]. unfold pack_B, pack_field.
    replace ((0 <=? len data) && (len data <? 256 ^ Z.of_nat 1)) with false.
    + eexists. reflexivity.
    + symmetry. apply andb_false_iff. right. apply Z.ltb_ge.
      change (256 ^ Z.of_nat 1) with 256. lia.
  - exists w'. split; [exact E|exact Htx].
Qed.

Lemma oversized_payload_is_refused_witness :
  exists w',
    send_command SEND_PACKET (repeat 0 256) (mkWorld true [] [] [] [])
    = (Ret false, w') /\ tx w' = tx (mkWorld true [] [] [] []).
Proof.
  refine (oversized_payload_is_refused SEND_PACKET (repeat 0 256)
            (mkWorld true [] [] [] []) _).
  vm_compute. reflexivity.
Defined.

(** X19 -- On a port that is not open the session does nothing.  Whatever
    the file and the version, [send_update_file] returns [False] without
    writing or reading anything. *)
Theorem closed_port_no_session filepath (f : file) new_version w :
  port_open w = false ->
  exists w',
    send_update_file filepath f new_version w = (Ret false, w') /\
    tx w' = tx w /\ rx w' = rx w /\ port_open w' = false.
Proof.
  intros Hclosed. destruct w as [o evs txs wf c]. cbn in Hclosed. subst o.
  destruct f; eexists; (split; [reflexivity|]); cbn [tx rx port_open];
    repeat split.
Qed.

Lemma closed_port_no_session_witness :
  exists w',
    send_update_file "fw.bin" (file_bytes sample_image) 1
      (mkWorld false (reply VERSION_INFO sample_version_data) [] [] [])
    = (Ret false, w') /\
    tx w' = tx (mkWorld false (reply VERSION_INFO sample_version_data) [] [] []) /\
    rx w' = rx (mkWorld false (reply VERSION_INFO sample_version_data) [] [] []) /\
    port_open w' = false.
Proof.
  refine (closed_port_no_session "fw.bin"%string (file_bytes sample_image) 1
            (mkWorld false (reply VERSION_INFO sample_version_data) [] [] []) _).
  reflexivity.
Defined.

(** X20 -- The exit code of [main] tells whether the update went through.
    When the port cannot be opened, [main] prints the reason and returns 1
    without touching the port.  When the port starts up, and an update is
    requested, [main] returns 0 if [send_update_file] returned [True]
    (whatever the version query after it gives) and 1 if it returned
    [False]. *)
Theorem main_exit_code args files w :
  (forall msg reset_input reset_output,
     main args (mkStartup (Some msg) reset_input reset_output) files w
     = (Ret 1,
        mkWorld (port_open w) (rx w) (tx w) (wfaults w)
                (console w ++ [("Connection failed: " ++ msg)%string]))) /\
  (forall path version b w1,
     info args = false -> update_requested args = Some (path, version) ->
     send_update_file path (files path) version
       (mkWorld true (rx w) (tx w) (wfaults w)
                (console w ++ [("Connected to ESP32 on " ++ port args)%string]))
     = (Ret b, w1) ->
     exists w',
       main args (mkStartup None None None) files w
       = (Ret (if b then 0 else 1), w')).
Proof.
  split.
  - intros msg reset_input reset_output. reflexivity.
  - intros path version b w1 Hinfo Hreq Hrun.
    unfold main. unfold bind at 1. rewrite connect_succeeds. cbn [negb].
    unfold bind at 1, try_finally, main_body. rewrite Hinfo, Hreq.
    unfold bind at 1. rewrite Hrun. destruct b.
    + unfold bind at 1. cbn [print]. unfold bind at 1.
      match goal with
      | |- context [get_version_info ?w0] =>
          destruct (get_version_info_any w0) as (o & w2 & E2 & _)
      end.
      rewrite E2.
      destruct o as [vi|].
      * unfold bind at 1. cbn [print]. unfold ret at 1.
        match goal with
        | |- context [disconnect ?w0] =>
            destruct (disconnect_closes w0) as (w3 & E3 & _)
        end.
        rewrite E3. unfold ret. eexists. reflexivity.
      * unfold ret at 1.
        destruct (disconnect_closes w2) as (w3 & E3 & _).
        rewrite E3. unfold ret. eexists. reflexivity.
    + unfold bind at 1. cbn [print]. unfold ret at 1.
      match goal with
      | |- context [disconnect ?w0] =>
          destruct (disconnect_closes w0) as (w3 & E3 & _)
      end.
      rewrite E3. unfold ret. eexists. reflexivity.
Qed.

Lemma main_exit_code_witness :
  exists w',
    main (mkArgs "COM5" 115200 (Some "fw.bin") (Some 1) false)%string
         (mkStartup None None None)
         (fun _ => file_missing) (mkWorld false [] [] [] [])
    = (Ret (if false then 0 else 1), w').
Proof.
  refine (proj2 (main_exit_code
                   (mkArgs "COM5" 115200 (Some "fw.bin") (Some 1) false)%string
                   (fun _ => file_missing) (mkWorld false [] [] [] []))
            "fw.bin"%string 1 false _ _ _ _).
  - reflexivity.
  - reflexivity.
  - reflexivity.
Defined.
